(** * PycQED_py3: the measurement-control demonstration notebook and the CI
  configuration

  The repository content under verification is two data files:

  - [examples/Setting up a basic measurement using the MC.ipynb], a Jupyter
    notebook (nbformat 4) with Python code cells, markdown cells and the
    outputs captured when the cells were executed;
  - [.travis.yml], the Travis CI configuration.

  Both are embedded as they are written: the notebook as its list of cells
  (every source line and every captured output line, with its line feed),
  the CI configuration as its list of raw lines, which [Travis.parse] reads
  into phases.  The Python statements of the code cells that talk to the
  [MC] object are read off the source lines by [Py.parse_stmt]. *)

From Stdlib Require Import List String Ascii Bool Arith PeanoNat Lia QArith.
Import ListNotations.
Open Scope string_scope.
Open Scope nat_scope.

(** ** Text helpers *)

Module Text.

Definition nl : string := String (ascii_of_nat 10) EmptyString.
Definition tab : string := String (ascii_of_nat 9) EmptyString.
Definition dq : string := String (ascii_of_nat 34) EmptyString.

(** A JSON string that ends in [\n]. *)
Definition ln (s : string) : string := s ++ nl.

Fixpoint strip_prefix (p s : string) : option string :=
  match p, s with
  | EmptyString, _ => Some s
  | String a p', String b s' =>
      if Ascii.eqb a b then strip_prefix p' s' else None
  | String _ _, EmptyString => None
  end.

Definition starts_with (p s : string) : bool :=
  match strip_prefix p s with Some _ => true | None => false end.

Fixpoint contains (needle s : string) : bool :=
  starts_with needle s
  || match s with
     | EmptyString => false
     | String _ s' => contains needle s'
     end.

(** The text that follows each occurrence of [needle] in [s], left to
    right. *)
Fixpoint occurrences (needle s : string) : list string :=
  let here := match strip_prefix needle s with
              | Some rest => [rest]
              | None => []
              end in
  match s with
  | EmptyString => here
  | String _ s' => here ++ occurrences needle s'
  end.

Fixpoint take_until (stop : ascii) (s : string) : string :=
  match s with
  | EmptyString => EmptyString
  | String c s' =>
      if Ascii.eqb c stop then EmptyString else String c (take_until stop s')
  end.

Fixpoint drop_until (stop : ascii) (s : string) : option string :=
  match s with
  | EmptyString => None
  | String c s' => if Ascii.eqb c stop then Some s' else drop_until stop s'
  end.

Fixpoint skip_spaces (s : string) : string :=
  match s with
  | String " " s' => skip_spaces s'
  | _ => s
  end.

Fixpoint rev_string (acc s : string) : string :=
  match s with
  | EmptyString => acc
  | String c s' => rev_string (String c acc) s'
  end.

Definition trim_right (s : string) : string :=
  rev_string EmptyString (skip_spaces (rev_string EmptyString s)).

Definition trim (s : string) : string := trim_right (skip_spaces s).

Definition ends_with (suffix s : string) : bool :=
  starts_with (rev_string EmptyString suffix) (rev_string EmptyString s).

Definition chomp (s : string) : string :=
  match rev_string EmptyString s with
  | String c r => if Ascii.eqb c (ascii_of_nat 10)
                  then rev_string EmptyString r else s
  | EmptyString => s
  end.

Definition is_digit (c : ascii) : bool :=
  let n := nat_of_ascii c in (48 <=? n) && (n <=? 57).

Definition is_ident_char (c : ascii) : bool :=
  let n := nat_of_ascii c in
  ((48 <=? n) && (n <=? 57)) || ((65 <=? n) && (n <=? 90))
  || ((97 <=? n) && (n <=? 122)) || (n =? 95).

Fixpoint take_ident (s : string) : string * string :=
  match s with
  | EmptyString => (EmptyString, EmptyString)
  | String c s' =>
      if is_ident_char c
      then let (i, r) := take_ident s' in (String c i, r)
      else (EmptyString, s)
  end.

(** Decimal literal: the digits read so far are in [acc]. *)
Fixpoint read_nat (acc : nat) (s : string) : nat * string :=
  match s with
  | String c s' =>
      if is_digit c then read_nat (10 * acc + (nat_of_ascii c - 48)) s'
      else (acc, s)
  | EmptyString => (acc, s)
  end.

Definition parse_nat (s : string) : option (nat * string) :=
  match s with
  | String c _ => if is_digit c then Some (read_nat 0 s) else None
  | EmptyString => None
  end.

Fixpoint split_on (sep : ascii) (cur s : string) : list string :=
  match s with
  | EmptyString => [rev_string EmptyString cur]
  | String c s' =>
      if Ascii.eqb c sep
      then rev_string EmptyString cur :: split_on sep EmptyString s'
      else split_on sep (String c cur) s'
  end.

(** [cut needle s] splits [s] around the first occurrence of [needle]. *)
Fixpoint cut (needle s : string) : option (string * string) :=
  match strip_prefix needle s with
  | Some rest => Some (EmptyString, rest)
  | None =>
      match s with
      | EmptyString => None
      | String c s' =>
          match cut needle s' with
          | Some (a, b) => Some (String c a, b)
          | None => None
          end
      end
  end.

Definition lower_char (c : ascii) : ascii :=
  let n := nat_of_ascii c in
  if (65 <=? n) && (n <=? 90) then ascii_of_nat (n + 32) else c.

Fixpoint lower (s : string) : string :=
  match s with
  | EmptyString => EmptyString
  | String c s' => String (lower_char c) (lower s')
  end.

Definition is_empty (s : string) : bool :=
  match s with EmptyString => true | String _ _ => false end.

(** Words of a line: maximal runs of characters other than the space. *)
Definition words (s : string) : list string :=
  filter (fun w => negb (is_empty w)) (split_on " " EmptyString s).

End Text.

Import Text.

(** ** The notebook format (nbformat 4), as far as the file uses it

  Display-only cell metadata ([collapsed], [scrolled]) is left out. *)

Module Nb.

Inductive output : Type :=
| Stream (name : string) (text : list string)
| ExecuteResult (execution_count : nat) (text_plain : list string).

Inductive cell : Type :=
| Code (execution_count : option nat) (outputs : list output)
       (source : list string)
| Markdown (source : list string).

Record kernelspec : Type := {
  display_name : string;
  language : string;
  ks_name : string
}.

Record language_info : Type := {
  codemirror_mode_name : string;
  codemirror_mode_version : nat;
  file_extension : string;
  mimetype : string;
  li_name : string;
  nbconvert_exporter : string;
  pygments_lexer : string;
  version : string
}.

Record notebook : Type := {
  cells : list cell;
  metadata_kernelspec : kernelspec;
  metadata_language_info : language_info;
  nbformat : nat;
  nbformat_minor : nat
}.

Definition source_of (c : cell) : list string :=
  match c with Code _ _ s => s | Markdown s => s end.

Definition code_source (c : cell) : list string :=
  match c with Code _ _ s => s | Markdown _ => [] end.

Definition markdown_source (c : cell) : list string :=
  match c with Code _ _ _ => [] | Markdown s => s end.

Definition outputs_of (c : cell) : list output :=
  match c with Code _ o _ => o | Markdown _ => [] end.

Definition output_lines (o : output) : list string :=
  match o with Stream _ t => t | ExecuteResult _ t => t end.

Definition stream_lines (name : string) (o : output) : list string :=
  match o with
  | Stream n t => if String.eqb n name then t else []
  | ExecuteResult _ _ => []
  end.

(** What the cell printed on the stream [name], line by line. *)
Definition printed (name : string) (c : cell) : list string :=
  flat_map (stream_lines name) (outputs_of c).

Definition stdout (c : cell) : list string := printed "stdout" c.
Definition stderr (c : cell) : list string := printed "stderr" c.

Definition all_output_lines (nb : notebook) : list string :=
  flat_map (fun c => flat_map output_lines (outputs_of c)) (cells nb).

Definition all_code_lines (nb : notebook) : list string :=
  flat_map code_source (cells nb).

Definition all_source_lines (nb : notebook) : list string :=
  flat_map source_of (cells nb).

End Nb.

Import Nb.

(** ** examples/Setting up a basic measurement using the MC.ipynb

    The cells in document order; [cell_k] is the k-th entry of the
    ["cells"] array, counted from 0. *)

Module Demo.

Definition cell_0 : cell :=
  Code (Some 1)
    [ Stream "stdout"
        [ ln "Data directory set to: /Users/Adriaan/Documents/Testing/Data" ] ]
    [ ln "import pycqed as pq";
      ln "import numpy as np";
      ln "from pycqed.measurement import measurement_control";
      ln "from pycqed.measurement.sweep_functions import None_Sweep";
      ln "import pycqed.measurement.detector_functions as det";
      ln "from qcodes import station";
      ln "station = station.Station()" ].

Definition cell_1 : cell :=
  Markdown
    [ ln "## Creating an instance of the measurement control";
      nl;
      "Measurements are controlled through the `MeasurementControl` usually instantiated as `MC`" ].

Definition cell_2 : cell :=
  Code (Some 2)
    [ ExecuteResult 2 [ "'MC'" ] ]
    [ ln "MC = measurement_control.MeasurementControl('MC',live_plot_enabled=True, verbose=True)";
      ln "MC.station = station";
      "station.add_component(MC)" ].

Definition cell_3 : cell :=
  Code (Some 3)
    [ Stream "stderr"
        [ ln "WARNING:root:Error getting or interpreting *IDN?: ''" ] ]
    [ ln "from pycqed.instrument_drivers.virtual_instruments import instrument_monitor as im ";
      ln "IM = im.InstrumentMonitor('IM', station)";
      ln "station.add_component(IM)";
      ln "# Link the instrument monitor to the MC so that it gets updated in the loop";
      "MC.instrument_monitor('IM')" ].

Definition cell_4 : cell :=
  Markdown
    [ ln "## Create instruments used in the experiment ";
      ln "Let's start by creating a dummy instrument called MockParabola. " ].

Definition cell_5 : cell :=
  Code (Some 4)
    [ ExecuteResult 4 [ "'dummy_instrument'" ] ]
    [ ln "from pycqed.instrument_drivers.physical_instruments.dummy_instruments import DummyParHolder";
      ln "dummy_instrument = DummyParHolder('dummy_instrument')";
      "station.add_component(dummy_instrument)" ].

Definition cell_6 : cell :=
  Markdown
    [ ln "## A 1D hard measurement ";
      "A hard measurement is a measurement where the data acquisition loop happens in the **hard**ware." ].

Definition cell_7 : cell :=
  Code (Some 6)
    [ Stream "stdout"
        [ ln "Starting measurement: dummy_hard";
          ln "Sweep function: None_Sweep";
          ln "Detector function: Dummy_Detector";
          ln (" 100% completed " ++ tab ++ "elapsed time: 1.1s " ++ tab ++ "time left: 0.0s") ] ]
    [ ln "MC.soft_avg(15)";
      ln "MC.persist_mode(True)";
      ln "MC.set_sweep_function(None_Sweep(sweep_control='hard'))";
      ln "MC.set_sweep_points(np.linspace(0, 10, 30))";
      ln "MC.set_detector_function(det.Dummy_Detector_Hard(noise=0.5, delay=.02))";
      ln "dat = MC.run('dummy_hard')" ].

Definition cell_8 : cell :=
  Markdown
    [ "By setting persist_mode = True we can see a copy of the last measurements" ].

Definition cell_9 : cell :=
  Code (Some 7)
    [ Stream "stdout"
        [ ln "Starting measurement: dummy_hard persistent";
          ln "Sweep function: None_Sweep";
          ln "Detector function: Dummy_Detector";
          ln (" 100% completed " ++ tab ++ "elapsed time: 1.8s " ++ tab ++ "time left: 0.0s") ] ]
    [ nl;
      ln "MC.set_sweep_function(None_Sweep(sweep_control='hard'))";
      ln "MC.set_sweep_points(np.linspace(0, 10, 30))";
      ln "MC.set_detector_function(det.Dummy_Detector_Hard(noise=0.5, delay=.02))";
      "dat2 = MC.run('dummy_hard persistent')" ].

Definition cell_10 : cell :=
  Markdown
    [ ln "# A simple 1D soft measurement ";
      "A soft measurement is a a measurement where the data acquisition loop occurs in the **soft**ware" ].

Definition cell_11 : cell :=
  Code None
    []
    [].

Definition cell_12 : cell :=
  Code None
    []
    [].

Definition cell_13 : cell :=
  Code (Some 8)
    []
    [ ln "dummy_instrument.x(145/134545)";
      "IM.update()" ].

Definition cell_14 : cell :=
  Code (Some 9)
    [ Stream "stdout"
        [ ln "Starting measurement: 1D test";
          ln "Sweep function: x";
          ln "Detector function: parabola";
          ln (" 100% completed " ++ tab ++ "elapsed time: 6.6s " ++ tab ++ "time left: 0.0s");
          ln "Starting measurement: 1D test-persist";
          ln "Sweep function: x";
          ln "Detector function: parabola";
          ln (" 100% completed " ++ tab ++ "elapsed time: 7.5s " ++ tab ++ "time left: 0.0s") ] ]
    [ ln "dummy_instrument.delay(.01)";
      ln "MC.soft_avg(15)";
      ln "MC.set_sweep_function(dummy_instrument.x)";
      ln "MC.set_sweep_points(np.linspace(-1,1,30))";
      ln "dummy_instrument.noise(1)";
      nl;
      ln "MC.set_detector_function(dummy_instrument.parabola)";
      ln "dat = MC.run('1D test')";
      nl;
      ln "# the second plot will also show the first line";
      ln "MC.set_sweep_function(dummy_instrument.x)";
      ln "MC.set_sweep_points(np.linspace(-1,1,30))";
      nl;
      "dat2= MC.run('1D test-persist')" ].

Definition cell_15 : cell :=
  Markdown
    [ "You can play around a bit with the options in the MC: " ].

Definition cell_16 : cell :=
  Code (Some 10)
    []
    [ ln "MC.persist_mode(True) # Turns on and off persistent plotting";
      ln "MC.verbose(True)";
      ln "MC.plotting_interval(.2)";
      "MC.live_plot_enabled(True)" ].

Definition cell_17 : cell :=
  Markdown
    [ "# A simple 2D measurement" ].

Definition cell_18 : cell :=
  Code (Some 10)
    [ Stream "stdout"
        [ ln "Starting measurement: test";
          ln "Sweep function 0: x";
          ln "Sweep function 1: Sweep_function";
          ln "Detector function: parabola";
          ln (" 100% completed " ++ tab ++ "elapsed time: 5.2s " ++ tab ++ "time left: 0.0ss") ] ]
    [ ln "dummy_instrument.delay(.0001)";
      ln "MC.soft_avg(4)";
      nl;
      ln "sweep_pts = np.linspace(-2, 2, 30)";
      ln "sweep_pts_2D = np.linspace(-2, 2, 5)";
      nl;
      ln "MC.set_sweep_function(dummy_instrument.x)";
      ln "MC.set_sweep_function_2D(dummy_instrument.y)";
      ln "MC.set_sweep_points(sweep_pts)";
      ln "MC.set_sweep_points_2D(sweep_pts_2D)";
      ln "MC.set_detector_function(dummy_instrument.parabola)";
      ln "dat=MC.run('test', mode='2D')" ].

Definition cell_19 : cell :=
  Markdown
    [ ln "# 2D combinatioin of a hard inner and soft outer loop";
      "The hard inner loop returns 30 values " ].

Definition cell_20 : cell :=
  Code (Some 9)
    [ Stream "stdout"
        [ ln "Starting measurement: 2D_hard";
          ln "Sweep function 0: None_Sweep";
          ln "Sweep function 1: None_Sweep";
          ln "Detector function: Dummy_Detector";
          ln (" 100% completed " ++ tab ++ "elapsed time: 14.0s " ++ tab ++ "time left: 0.0s") ] ]
    [ ln "MC.soft_avg(1)";
      ln "sweep_pts = np.linspace(0, 10, 30)";
      ln "sweep_pts_2D = np.linspace(0, 10, 30)";
      ln "MC.set_sweep_function(None_Sweep(sweep_control='hard'))";
      ln "MC.set_sweep_function_2D(None_Sweep(sweep_control='soft'))";
      ln "MC.set_sweep_points(sweep_pts)";
      ln "MC.set_sweep_points_2D(sweep_pts_2D)";
      ln "MC.set_detector_function(det.Dummy_Detector_Hard(delay=.05, noise=.1))";
      "dat = MC.run('2D_hard', mode='2D')" ].

Definition cell_21 : cell :=
  Markdown
    [ "## A Hard measurement that uses soft averaging" ].

Definition cell_22 : cell :=
  Markdown
    [ ln "The number of soft_averages determines how many times the experiment will be performed. ";
      ln "Only the averaged data is plotted and saved. ";
      ln "The number of soft-averages can be set as a parameter of the Measurement Control. ";
      nl;
      "Will first implement it for 1D hard sweeps (easier) and then follow for combinations of hard and soft sweeps. " ].

Definition cell_23 : cell :=
  Code (Some 10)
    [ Stream "stdout"
        [ ln "Starting measurement: dummy_hard";
          ln "Sweep function: None_Sweep";
          ln "Detector function: Dummy_Detector";
          ln (" 100% completed " ++ tab ++ "elapsed time: 1.1s " ++ tab ++ "time left: 0.0s") ] ]
    [ ln "MC.soft_avg(4)";
      ln "MC.set_sweep_function(None_Sweep(sweep_control='hard'))";
      ln "MC.set_sweep_points(np.linspace(0, 10, 30))";
      ln "MC.set_detector_function(det.Dummy_Detector_Hard(noise=1.5, delay=.02))";
      nl;
      "dat = MC.run('dummy_hard')" ].

Definition cell_24 : cell :=
  Markdown
    [ "# 2D soft averaging" ].

Definition cell_25 : cell :=
  Code (Some 11)
    [ Stream "stdout"
        [ ln "Starting measurement: dummy_hard_2D";
          ln "Sweep function 0: None_Sweep";
          ln "Sweep function 1: None_Sweep";
          ln "Detector function: Dummy_Detector";
          ln (" 100% completed " ++ tab ++ "elapsed time: 16.7s " ++ tab ++ "time left: 0.0s") ] ]
    [ ln "MC.soft_avg(10)";
      ln "sweep_pts = np.linspace(0, 10, 30)";
      ln "sweep_pts_2D = np.linspace(0, 10, 5)";
      ln "MC.set_sweep_function(None_Sweep(sweep_control='hard'))";
      ln "MC.set_sweep_function_2D(None_Sweep(sweep_control='soft'))";
      ln "MC.set_sweep_points(sweep_pts)";
      ln "MC.set_sweep_points_2D(sweep_pts_2D)";
      ln "MC.set_detector_function(det.Dummy_Detector_Hard(noise=1.5, delay=.001))";
      nl;
      "dat = MC.run('dummy_hard_2D', mode='2D')" ].

Definition cell_26 : cell :=
  Markdown
    [ nl;
      ln "## Starting an adaptive measurement ";
      "This example does a 2D optimization over the mock parabola" ].

Definition cell_27 : cell :=
  Code (Some 12)
    [ Stream "stdout"
        [ ln "Starting measurement: 1D test";
          ln "Sweep function 0: module";
          ln "Sweep function 1: module";
          ln "Detector function: parabola";
          ln "Optimization completed in 1.564s" ] ]
    [ ln "from pycqed.measurement.optimization import nelder_mead";
      ln "MC.soft_avg(1)";
      ln "dummy_instrument";
      ln "MC.set_sweep_functions([dummy_instrument.x, dummy_instrument.y])";
      ln "MC.set_adaptive_function_parameters({'adaptive_function':nelder_mead, ";
      ln "                                    'x0':[-5,-5], 'initial_step': [2.5, 2.5]})";
      ln "dummy_instrument.noise(.5)";
      ln "MC.set_detector_function(dummy_instrument.parabola)";
      ln "dat = MC.run('1D test', mode='adaptive')" ].

Definition cell_28 : cell :=
  Code None
    []
    [].

Definition all_cells : list cell :=
  [ cell_0; cell_1; cell_2; cell_3; cell_4; cell_5;
    cell_6; cell_7; cell_8; cell_9; cell_10; cell_11;
    cell_12; cell_13; cell_14; cell_15; cell_16; cell_17;
    cell_18; cell_19; cell_20; cell_21; cell_22; cell_23;
    cell_24; cell_25; cell_26; cell_27; cell_28 ].

Definition nb : notebook := {|
  cells := all_cells;
  metadata_kernelspec := {|
    display_name := "Python 3";
    language := "python";
    ks_name := "python3"
  |};
  metadata_language_info := {|
    codemirror_mode_name := "ipython";
    codemirror_mode_version := 3;
    file_extension := ".py";
    mimetype := "text/x-python";
    li_name := "python";
    nbconvert_exporter := "python";
    pygments_lexer := "ipython3";
    version := "3.6.0"
  |};
  nbformat := 4;
  nbformat_minor := 0
|}.

End Demo.

(** ** The Python statements of the code cells

    Only what the notebook uses is read: import statements, and calls of a
    method on the object [MC], with the arguments the demonstration passes. *)

Module Py.

(** A [#] outside a single-quoted string starts a comment. *)
Fixpoint strip_comment (in_quote : bool) (s : string) : string :=
  match s with
  | EmptyString => EmptyString
  | String c s' =>
      if Ascii.eqb c "'" then String c (strip_comment (negb in_quote) s')
      else if Ascii.eqb c "#" && negb in_quote then EmptyString
      else String c (strip_comment in_quote s')
  end.

(** The code of a source line: no comment, no line feed, no outer blanks. *)
Definition code_of (line : string) : string :=
  trim (strip_comment false (chomp line)).

Inductive import : Type :=
| ImportFrom (module name : string) (asname : option string)
| ImportModule (module : string) (asname : option string).

Definition parse_import (line : string) : option import :=
  match words (code_of line) with
  | [ "from"; m; "import"; n ] => Some (ImportFrom m n None)
  | [ "from"; m; "import"; n; "as"; a ] => Some (ImportFrom m n (Some a))
  | [ "import"; m ] => Some (ImportModule m None)
  | [ "import"; m; "as"; a ] => Some (ImportModule m (Some a))
  | _ => None
  end.

(** The name an import binds, and the dotted path of what it is bound to. *)
Definition binding (i : import) : string * string :=
  match i with
  | ImportFrom m n None => (n, m ++ "." ++ n)
  | ImportFrom m n (Some a) => (a, m ++ "." ++ n)
  | ImportModule m None => (m, m)
  | ImportModule m (Some a) => (a, m)
  end.

(** The text after the first [recv.] that is not the tail of a longer
    identifier. *)
Fixpoint after_receiver (recv : string) (prev_ident : bool) (s : string)
  : option string :=
  match s with
  | EmptyString => None
  | String c s' =>
      match (if prev_ident then None else strip_prefix (recv ++ ".") s) with
      | Some rest => Some rest
      | None => after_receiver recv (is_ident_char c) s'
      end
  end.

(** The argument text of a call, from just after its opening parenthesis to
    the matching closing one (or to the end of the line when the call
    continues on the next line). *)
Fixpoint call_args (depth : nat) (s : string) : string :=
  match s with
  | EmptyString => EmptyString
  | String c s' =>
      if Ascii.eqb c ")" then
        match depth with
        | O => EmptyString
        | S d => String c (call_args d s')
        end
      else if Ascii.eqb c "(" then String c (call_args (S depth) s')
      else String c (call_args depth s')
  end.

(** [recv.method(args)] on a line: the method and the argument text. *)
Definition method_call (recv line : string) : option (string * string) :=
  match after_receiver recv false (code_of line) with
  | Some rest =>
      let (m, r) := take_ident rest in
      match r with
      | String "(" r' => if is_empty m then None else Some (m, call_args 0 r')
      | _ => None
      end
  | None => None
  end.

(** The first single-quoted string literal of an argument text. *)
Definition first_literal (args : string) : option string :=
  match drop_until "'" args with
  | Some rest =>
      match drop_until "'" rest with
      | Some _ => Some (take_until "'" rest)
      | None => None
      end
  | None => None
  end.

(** The string literal passed as keyword argument [kw]. *)
Definition kwarg (kw args : string) : option string :=
  match cut (kw ++ "='") args with
  | Some (_, rest) =>
      match drop_until "'" rest with
      | Some _ => Some (take_until "'" rest)
      | None => None
      end
  | None => None
  end.

(** The items of a list display [[a, b, ...]]. *)
Definition list_items (args : string) : list string :=
  match strip_prefix "[" (trim args) with
  | Some rest => map trim (split_on "," EmptyString (take_until "]" rest))
  | None => [trim args]
  end.

(** The calls on [MC] that the notebook makes. *)
Inductive stmt : Type :=
| soft_avg (n : nat)
| set_sweep_function (f : string)
| set_sweep_function_2D (f : string)
| set_sweep_functions (fs : list string)
| set_sweep_points (pts : string)
| set_sweep_points_2D (pts : string)
| set_detector_function (d : string)
| set_adaptive_function_parameters (params : string)
| run (name : string) (mode : option string)
| other (method args : string).

Definition stmt_of_call (m args : string) : stmt :=
  if String.eqb m "soft_avg" then
    match parse_nat args with
    | Some (n, EmptyString) => soft_avg n
    | _ => other m args
    end
  else if String.eqb m "set_sweep_function" then set_sweep_function args
  else if String.eqb m "set_sweep_function_2D" then set_sweep_function_2D args
  else if String.eqb m "set_sweep_functions"
       then set_sweep_functions (list_items args)
  else if String.eqb m "set_sweep_points" then set_sweep_points args
  else if String.eqb m "set_sweep_points_2D" then set_sweep_points_2D args
  else if String.eqb m "set_detector_function" then set_detector_function args
  else if String.eqb m "set_adaptive_function_parameters"
       then set_adaptive_function_parameters args
  else if String.eqb m "run" then
    match first_literal args with
    | Some n => run n (kwarg "mode" args)
    | None => other m args
    end
  else other m args.

Definition parse_stmt (line : string) : option stmt :=
  match method_call "MC" line with
  | Some (m, args) => Some (stmt_of_call m args)
  | None => None
  end.

Definition stmts_of (source : list string) : list stmt :=
  flat_map (fun l => match parse_stmt l with Some s => [s] | None => [] end)
           source.

Definition cell_stmts (c : cell) : list stmt := stmts_of (code_source c).

End Py.

(** ** The runs of the notebook and the logs captured for them *)

Module Runs.

Import Py.

(** A call [MC.run(name, mode=...)] in a cell, with the calls on [MC] that
    come before it in the same cell. *)
Record run_site : Type := {
  before : list stmt;
  name : string;
  mode : option string
}.

Fixpoint run_sites (before rest : list stmt) : list run_site :=
  match rest with
  | [] => []
  | run n m :: rest' =>
      {| before := before; name := n; mode := m |}
        :: run_sites (before ++ [run n m]) rest'
  | s :: rest' => run_sites (before ++ [s]) rest'
  end.

Definition cell_runs (c : cell) : list run_site :=
  run_sites [] (cell_stmts c).

Definition is_run (s : stmt) : bool :=
  match s with run _ _ => true | _ => false end.

(** The calls made after the previous [MC.run] of the cell. *)
Fixpoint since_last_run (acc ss : list stmt) : list stmt :=
  match ss with
  | [] => acc
  | s :: ss' =>
      if is_run s then since_last_run [] ss' else since_last_run (acc ++ [s]) ss'
  end.

Definition sets_sweep_function (s : stmt) : bool :=
  match s with set_sweep_function _ => true | _ => false end.
Definition sets_sweep_function_2D (s : stmt) : bool :=
  match s with set_sweep_function_2D _ => true | _ => false end.
Definition sets_sweep_functions (s : stmt) : bool :=
  match s with set_sweep_functions _ => true | _ => false end.
Definition sets_sweep_points (s : stmt) : bool :=
  match s with set_sweep_points _ => true | _ => false end.
Definition sets_sweep_points_2D (s : stmt) : bool :=
  match s with set_sweep_points_2D _ => true | _ => false end.
Definition sets_detector_function (s : stmt) : bool :=
  match s with set_detector_function _ => true | _ => false end.
Definition sets_adaptive_function_parameters (s : stmt) : bool :=
  match s with set_adaptive_function_parameters _ => true | _ => false end.

Definition is_mode (m : string) (r : run_site) : bool :=
  match mode r with Some m' => String.eqb m m' | None => false end.

(** The sweep functions the calls [ss] leave configured, given the ones
    configured before: the expressions passed, in the order of the sweep
    dimensions. *)
Fixpoint sweep_exprs (acc : list string) (ss : list stmt) : list string :=
  match ss with
  | [] => acc
  | set_sweep_function f :: ss' => sweep_exprs [f] ss'
  | set_sweep_function_2D f :: ss' => sweep_exprs (firstn 1 acc ++ [f]) ss'
  | set_sweep_functions fs :: ss' => sweep_exprs fs ss'
  | _ :: ss' => sweep_exprs acc ss'
  end.

(** The sweep functions passed for a run: those set since the previous run of
    the cell. *)
Definition run_sweeps (r : run_site) : list string :=
  sweep_exprs [] (since_last_run [] (before r)).

Definition sweep_dims (r : run_site) : nat := List.length (run_sweeps r).

(** Every sweep-function expression passed to [MC] in a cell. *)
Definition passed_sweeps (c : cell) : list string :=
  flat_map (fun s => match s with
                     | set_sweep_function f => [f]
                     | set_sweep_function_2D f => [f]
                     | set_sweep_functions fs => fs
                     | _ => []
                     end) (cell_stmts c).

(** An expression that constructs an object: a call [Name(args)]. *)
Definition constructor_call (e : string) : option (string * string) :=
  let (n, r) := take_ident e in
  match r with
  | String "(" r' => if is_empty n then None else Some (n, call_args 0 r')
  | _ => None
  end.

Definition constructed_sweeps (nb : notebook) : list (string * string) :=
  flat_map (fun e => match constructor_call e with
                     | Some c => [c]
                     | None => []
                     end)
           (flat_map passed_sweeps (cells nb)).

(** *** Captured logs *)

Definition starts_run (line : string) : bool :=
  starts_with "Starting measurement: " line.

(** The lines before the first run header, and one group of lines per run
    header. *)
Fixpoint group_logs (lines : list string) : list string * list (list string) :=
  match lines with
  | [] => ([], [])
  | l :: rest =>
      let (pre, groups) := group_logs rest in
      if starts_run l then ([], (l :: pre) :: groups)
      else (l :: pre, groups)
  end.

Definition cell_logs (c : cell) : list (list string) :=
  snd (group_logs (stdout c)).

(** Each run of a cell with the log captured for it. *)
Definition captured (c : cell) : list (run_site * list string) :=
  combine (cell_runs c) (cell_logs c).

Definition captured_runs (nb : notebook) : list (run_site * list string) :=
  flat_map captured (cells nb).

Fixpoint all_digits (s : string) : bool :=
  match s with
  | EmptyString => true
  | String c s' => is_digit c && all_digits s'
  end.

(** A progress line [ <pct>% completed \telapsed time: <e> \ttime left: <t>\n]:
    the percentage, the elapsed time and the time left, as printed. *)
Definition progress_line (l : string) : option (string * string * string) :=
  match cut ("% completed " ++ tab ++ "elapsed time: ") (skip_spaces l) with
  | Some (pct, rest) =>
      match cut (" " ++ tab ++ "time left: ") rest with
      | Some (elapsed, rest') =>
          match cut nl rest' with
          | Some (remaining, EmptyString) =>
              if all_digits pct && negb (is_empty pct)
                 && ends_with "s" elapsed && ends_with "s" remaining
              then Some (pct, elapsed, remaining)
              else None
          | _ => None
          end
      | None => None
      end
  | None => None
  end.

Definition is_progress (l : string) : bool :=
  match progress_line l with Some _ => true | None => false end.

Definition reports_progress (log : list string) : bool :=
  existsb is_progress log.

(** The name printed after [label] on a full line. *)
Definition labelled (label line : string) : option string :=
  match strip_prefix label line with
  | Some rest =>
      match cut nl rest with
      | Some (n, EmptyString) => if is_empty n then None else Some n
      | _ => None
      end
  | None => None
  end.

Definition is_labelled (label line : string) : bool :=
  match labelled label line with Some _ => true | None => false end.

Definition mentions_sweep (line : string) : bool :=
  starts_with "Sweep function" line.

Definition no_sweep_line (rest : list string) : bool :=
  forallb (fun l => negb (mentions_sweep l)) rest.

(** The log of a run of [dims] sweep dimensions called with the name [nm]:
    the start line, one line per sweep function (numbered from 0 when there
    are two), the detector line, and no further sweep line. *)
Definition header_ok (nm : string) (dims : nat) (log : list string) : bool :=
  match dims, log with
  | 1, start :: sw :: det :: rest =>
      String.eqb start ("Starting measurement: " ++ nm ++ nl)
      && is_labelled "Sweep function: " sw
      && is_labelled "Detector function: " det
      && no_sweep_line rest
  | 2, start :: sw0 :: sw1 :: det :: rest =>
      String.eqb start ("Starting measurement: " ++ nm ++ nl)
      && is_labelled "Sweep function 0: " sw0
      && is_labelled "Sweep function 1: " sw1
      && is_labelled "Detector function: " det
      && no_sweep_line rest
  | _, _ => false
  end.

(** Some call before the run satisfies [p]. *)
Definition sets_before (p : stmt -> bool) (r : run_site) : bool :=
  existsb p (before r).

End Runs.

(** ** .travis.yml *)

Module Travis.

(** The file, line by line (without the line feeds). *)
Definition travis_yml : list string :=
  [ "language: python";
    "notifications:";
    "  email: false";
    EmptyString;
    "os:";
    "  - linux";
    EmptyString;
    "python:";
    "  - " ++ dq ++ "3.6" ++ dq;
    "  # whitelist";
    "# branches:";
    "#   only:";
    "#     - master";
    "# command to install dependencies";
    "install:";
    "    - pip install --upgrade pip";
    "    - pip install ipython";
    "    - pip install -r develop_requirements.txt";
    "    - pip install qcodes # Added explictly here";
    "    - pip install coverage pytest-cov pytest --upgrade";
    "    - pip install codacy-coverage";
    "    - pip install -e .";
    EmptyString;
    "before_script: # configure a headless display to test plot generation";
    "- " ++ dq ++ "export DISPLAY=:99.0" ++ dq;
    "- " ++ dq ++ "sh -e /etc/init.d/xvfb start" ++ dq;
    "- sleep 3 # give xvfb some time to start";
    EmptyString;
    "# command to run tests";
    "script:";
    "    - py.test pycqed/tests --cov=pycqed --cov-report xml --cov-config=.coveragerc";
    EmptyString;
    "after_success:";
    "    - pip install codacy-coverage";
    "    - python-codacy-coverage -r coverage.xml" ].

(** A [#] at the start of a line or after a blank, outside a double-quoted
    scalar, starts a comment. *)
Fixpoint strip_comment (prev_blank in_quote : bool) (s : string) : string :=
  match s with
  | EmptyString => EmptyString
  | String c s' =>
      if Ascii.eqb c (ascii_of_nat 34)
      then String c (strip_comment false (negb in_quote) s')
      else if Ascii.eqb c "#" && prev_blank && negb in_quote then EmptyString
      else String c (strip_comment (Ascii.eqb c " ") in_quote s')
  end.

(** A double-quoted scalar stands for the text between its quotes. *)
Definition unquote (s : string) : string :=
  match strip_prefix dq s with
  | Some rest => if ends_with dq rest then take_until (ascii_of_nat 34) rest
                 else s
  | None => s
  end.

Inductive entry : Type :=
| Item (value : string)
| Field (key value : string).

Record section : Type := {
  key : string;
  scalar : string;
  entries : list entry
}.

Inductive line_kind : Type :=
| Blank
| Key (k v : string)
| Entry (e : entry).

Definition split_key (s : string) : string * string :=
  match cut ":" s with
  | Some (k, v) => (trim k, unquote (trim v))
  | None => (trim s, EmptyString)
  end.

Definition classify (line : string) : line_kind :=
  let text := trim_right (strip_comment true false line) in
  let body := skip_spaces text in
  if is_empty body then Blank
  else match strip_prefix "- " body with
       | Some v => Entry (Item (unquote (trim v)))
       | None =>
           let (k, v) := split_key body in
           if starts_with " " text then Entry (Field k v) else Key k v
       end.

Definition add_entry (e : entry) (cur : option section) : option section :=
  match cur with
  | Some s => Some {| key := key s; scalar := scalar s;
                      entries := entries s ++ [e] |}
  | None => None
  end.

Definition emit (cur : option section) : list section :=
  match cur with Some s => [s] | None => [] end.

(** The top-level keys of the file, in file order, each with its entries. *)
Fixpoint parse_from (cur : option section) (lines : list string)
  : list section :=
  match lines with
  | [] => emit cur
  | l :: rest =>
      match classify l with
      | Blank => parse_from cur rest
      | Key k v =>
          emit cur
            ++ parse_from (Some {| key := k; scalar := v; entries := [] |}) rest
      | Entry e => parse_from (add_entry e cur) rest
      end
  end.

Definition parse (lines : list string) : list section := parse_from None lines.

Definition config : list section := parse travis_yml.

Definition items (s : section) : list string :=
  flat_map (fun e => match e with Item v => [v] | Field _ _ => [] end)
           (entries s).

(** The commands listed under the phase [ph], in order. *)
Definition commands (cfg : list section) (ph : string) : list string :=
  flat_map (fun s => if String.eqb (key s) ph then items s else []) cfg.

(** The phases of a Travis CI job, in the order the service runs them for a
    build whose [script] succeeds. *)
Definition lifecycle : list string :=
  [ "before_install"; "install"; "before_script"; "script";
    "after_success"; "before_deploy"; "deploy"; "after_deploy";
    "after_script" ].

(** Every command of the job with its phase, in the order it runs. *)
Definition run_order (cfg : list section) : list (string * string) :=
  flat_map (fun ph => map (pair ph) (commands cfg ph)) lifecycle.

(** The same in the order the phases are written in the file. *)
Definition file_order (cfg : list section) : list (string * string) :=
  flat_map (fun s => if existsb (String.eqb (key s)) lifecycle
                     then map (pair (key s)) (items s) else [])
           cfg.

Definition in_phase (ph : string) (step : string * string) : bool :=
  String.eqb (fst step) ph.

(** No step of phase [a] comes at or after a step of phase [b]; [seen_b]
    tells whether a step of [b] has been passed already. *)
Fixpoint precedes (a b : string) (seen_b : bool) (steps : list (string * string))
  : bool :=
  match steps with
  | [] => true
  | s :: rest =>
      if in_phase a s then negb seen_b && precedes a b seen_b rest
      else precedes a b (seen_b || in_phase b s) rest
  end.

(** A step that installs packages with pip. *)
Definition installs_packages (cmd : string) : bool :=
  match words cmd with
  | "pip" :: "install" :: _ => true
  | _ => false
  end.

(** A step that runs py.test: the directory it collects tests from and its
    options. *)
Definition test_run (cmd : string) : option (string * list string) :=
  match words cmd with
  | "py.test" :: dir :: opts => Some (dir, opts)
  | _ => None
  end.

Definition last_component (path : string) : string :=
  last (split_on "/" EmptyString path) EmptyString.

End Travis.

(** ** The supplied files *)

Module Repo.

Inductive content : Type :=
| NotebookFile (nb : notebook)
| CIConfig (lines : list string).

Record file : Type := {
  path : string;
  body : content
}.

Definition notebook_path : string :=
  "examples/Setting up a basic measurement using the MC.ipynb".

Definition ci_path : string := ".travis.yml".

Definition files : list file :=
  [ {| path := ci_path; body := CIConfig Travis.travis_yml |};
    {| path := notebook_path; body := NotebookFile Demo.nb |} ].

Definition is_demo_notebook (f : file) : bool :=
  String.eqb (path f) notebook_path
  && match body f with NotebookFile _ => true | CIConfig _ => false end.

Definition is_ci_config (f : file) : bool :=
  String.eqb (path f) ci_path
  && match body f with NotebookFile _ => false | CIConfig _ => true end.

Definition is_python_source (f : file) : bool := ends_with ".py" (path f).

(** The Python code a file holds: the source lines of its code cells. *)
Definition python_lines (f : file) : list string :=
  match body f with
  | NotebookFile nb => all_code_lines nb
  | CIConfig _ => []
  end.

(** Every line of text of a file: cell sources and captured outputs of a
    notebook, the lines of the CI configuration. *)
Definition text_lines (f : file) : list string :=
  match body f with
  | NotebookFile nb => all_source_lines nb ++ all_output_lines nb
  | CIConfig ls => ls
  end.

Definition all_python_lines : list string := flat_map python_lines files.
Definition all_text_lines : list string := flat_map text_lines files.

(** The name a [def] or [class] statement declares. *)
Definition declared (line : string) : option string :=
  match words (Py.code_of line) with
  | "def" :: n :: _ => Some (fst (take_ident n))
  | "class" :: n :: _ => Some (fst (take_ident n))
  | _ => None
  end.

(** The name a plain assignment [name = ...] binds. *)
Definition assigned (line : string) : option string :=
  let (n, r) := take_ident (Py.code_of line) in
  match skip_spaces r with
  | String "=" (String "=" _) => None
  | String "=" _ => if is_empty n then None else Some n
  | _ => None
  end.

Definition defined_names (lines : list string) : list string :=
  flat_map (fun l => match declared l with
                     | Some n => [n]
                     | None => match assigned l with
                               | Some n => [n]
                               | None => []
                               end
                     end) lines.

Definition declared_names (lines : list string) : list string :=
  flat_map (fun l => match declared l with Some n => [n] | None => [] end)
           lines.

(** The identifiers of a text, left to right. *)
Fixpoint idents_from (cur s : string) : list string :=
  match s with
  | EmptyString => if is_empty cur then [] else [cur]
  | String c s' =>
      if is_ident_char c then idents_from (cur ++ String c EmptyString) s'
      else (if is_empty cur then [] else [cur]) ++ idents_from EmptyString s'
  end.

Definition idents (line : string) : list string := idents_from EmptyString line.

Definition mentions (x line : string) : bool :=
  existsb (String.eqb x) (idents line).

(** *** Imports and what a name of the code refers to *)

Definition bindings (lines : list string) : list (string * string) :=
  flat_map (fun l => match Py.parse_import l with
                     | Some i => [Py.binding i]
                     | None => []
                     end) lines.

Fixpoint lookup (x : string) (bs : list (string * string)) : option string :=
  match bs with
  | [] => None
  | (a, p) :: bs' => if String.eqb a x then Some p else lookup x bs'
  end.

(** [x] is used as the attribute [a.x] of the imported name [a]. *)
Definition attribute_of (a x line : string) : bool :=
  match Py.after_receiver a false (Py.code_of line) with
  | Some rest => String.eqb (fst (take_ident rest)) x
  | None => false
  end.

Fixpoint through_attribute (x : string) (lines : list string)
                           (bs : list (string * string)) : option string :=
  match bs with
  | [] => None
  | (a, p) :: bs' =>
      if existsb (attribute_of a x) lines then Some (p ++ "." ++ x)
      else through_attribute x lines bs'
  end.

(** The dotted path of the object the code calls [x]: a name bound by an
    import, or an attribute of an imported module. *)
Definition resolve (x : string) (lines : list string) : option string :=
  match lookup x (bindings lines) with
  | Some p => Some p
  | None => through_attribute x lines (bindings lines)
  end.

Definition is_import (line : string) : bool :=
  match Py.parse_import line with Some _ => true | None => false end.

(** [x] is used by a statement that is not an import. *)
Definition used (x : string) (lines : list string) : bool :=
  existsb (fun l => negb (is_import l) && mentions x (Py.code_of l)) lines.

Definition external_objects : list string :=
  [ "MeasurementControl"; "None_Sweep"; "Dummy_Detector_Hard";
    "DummyParHolder"; "nelder_mead" ].

(** *** Error handling *)

Definition error_keywords : list string :=
  [ "try"; "except"; "finally"; "raise"; "assert" ].

(** A Python statement that handles or signals an error. *)
Definition handles_errors (line : string) : bool :=
  existsb (String.eqb (fst (take_ident (Py.code_of line)))) error_keywords.

(** A CI configuration reacts to a failure through an [after_failure] phase
    or a step with a fallback ([||]) or a [trap]. *)
Definition ci_handles_errors (cfg : list Travis.section) : bool :=
  existsb (fun s => String.eqb (Travis.key s) "after_failure") cfg
  || existsb (fun cmd => contains "||" cmd || mentions "trap" cmd)
             (flat_map Travis.items cfg).

Definition error_related (line : string) : bool :=
  contains "error" (lower line).

(** *** Values of [sweep_control] *)

Definition quoted_value (rest : string) : option string :=
  match strip_prefix "='" rest with
  | Some r => match cut "'" r with
              | Some (v, _) => Some v
              | None => None
              end
  | None => None
  end.

Definition sweep_control_values (lines : list string) : list (option string) :=
  flat_map (fun l => map quoted_value (occurrences "sweep_control" l)) lines.

End Repo.

(** ** The soft-averaging parameter of the measurement control *)

Module MC.

Import Py.

(** Modelled from the spec: the [soft_avg] parameter of [MeasurementControl]
    (pycqed/measurement/measurement_control.py is not among the supplied
    files).  The number of soft averages is a parameter of the object:
    [MC.soft_avg(n)] sets it, and it keeps its value until it is set again. *)
Definition set_param (cur : option nat) (s : stmt) : option nat :=
  match s with
  | soft_avg n => Some n
  | _ => cur
  end.

(** Modelled from the spec: the runs a sequence of calls on
    [MeasurementControl] starts, each with the number of soft averages in
    force when [MC.run] is called ([None] while it was never set). *)
Fixpoint trace (cur : option nat) (ss : list stmt) : list (string * option nat) :=
  match ss with
  | [] => []
  | run n _ :: ss' => (n, cur) :: trace cur ss'
  | s :: ss' => trace (set_param cur s) ss'
  end.

(** The calls of the whole notebook, cell after cell in document order. *)
Definition notebook_stmts (nb : notebook) : list stmt :=
  flat_map cell_stmts (cells nb).

Definition soft_avg_args (ss : list stmt) : list nat :=
  flat_map (fun s => match s with soft_avg n => [n] | _ => [] end) ss.

(** A call of the method [soft_avg] whose argument is not a number. *)
Definition unread_soft_avg (s : stmt) : bool :=
  match s with
  | other m _ => String.eqb m "soft_avg"
  | _ => false
  end.

(** In the calls of one cell, [MC.soft_avg] comes before every [MC.run];
    [seen_run] tells whether a run has been passed already. *)
Fixpoint soft_avg_leads (seen_run : bool) (ss : list stmt) : bool :=
  match ss with
  | [] => true
  | soft_avg _ :: ss' => negb seen_run && soft_avg_leads seen_run ss'
  | run _ _ :: ss' => soft_avg_leads true ss'
  | _ :: ss' => soft_avg_leads seen_run ss'
  end.

(** Modelled from the spec: soft averaging, "repeating an entire measurement
    multiple times and averaging results".  [measure k] is the data the
    [k]-th repetition of the entire measurement returns, one value per sweep
    point. *)
Definition repetitions (n : nat) (measure : nat -> list Q) : list (list Q) :=
  map measure (seq 0 n).

Definition add_points (a b : list Q) : list Q :=
  map (fun p => (fst p + snd p)%Q) (combine a b).

Definition sum_points (reps : list (list Q)) : list Q :=
  match reps with
  | [] => []
  | r :: rs => fold_left add_points rs r
  end.

(** Modelled from the spec: the result of a run with [n] soft averages, the
    point-by-point mean of its [n] repetitions. *)
Definition soft_average (n : nat) (measure : nat -> list Q) : list Q :=
  map (fun s => (s / inject_Z (Z.of_nat n))%Q)
      (sum_points (repetitions n measure)).

(** The sum, over the repetitions [reps], of the values measured at the
    sweep point [i]. *)
Definition point_sum (i : nat) (reps : list (list Q)) : Q :=
  fold_right Qplus 0%Q (map (fun r => nth i r 0%Q) reps).

End MC.

(** ** Names: what a line of code binds and what it reads *)

Module Scope.

(** The text after an identifier makes it a keyword-argument name or an
    assignment target: a single [=]. *)
Definition followed_by_assign (rest : string) : bool :=
  match skip_spaces rest with
  | String "=" (String "=" _) => false
  | String "=" _ => true
  | _ => false
  end.

Inductive token : Type :=
| NoToken
| Name (w : string)
| Skipped.

Definition emit (t : token) (rest : string) : list string :=
  match t with
  | Name w => if followed_by_assign rest then [] else [w]
  | _ => []
  end.

(** The names a piece of code reads, left to right: identifiers outside
    string literals that are neither attributes (after a dot), nor numbers,
    nor followed by a single [=]. *)
Fixpoint names_from (in_quote : bool) (prev : ascii) (t : token) (s : string)
  : list string :=
  match s with
  | EmptyString => emit t EmptyString
  | String c s' =>
      if in_quote then names_from (negb (Ascii.eqb c "'")) c NoToken s'
      else if Ascii.eqb c "'" then emit t s ++ names_from true c NoToken s'
      else if is_ident_char c then
        match t with
        | Name w => names_from false c (Name (w ++ String c EmptyString)) s'
        | Skipped => names_from false c Skipped s'
        | NoToken =>
            if Ascii.eqb prev "." || is_digit c
            then names_from false c Skipped s'
            else names_from false c (Name (String c EmptyString)) s'
        end
      else emit t s ++ names_from false c NoToken s'
  end.

(** The names a source line reads; an import statement reads none. *)
Definition line_uses (line : string) : list string :=
  if Repo.is_import line then []
  else names_from false " " NoToken (Py.code_of line).

(** The name a source line binds: by an import or by an assignment. *)
Definition line_binds (line : string) : list string :=
  match Py.parse_import line with
  | Some i => [fst (Py.binding i)]
  | None => match Repo.assigned line with
            | Some x => [x]
            | None => []
            end
  end.

Definition known (bound : list string) (x : string) : bool :=
  existsb (String.eqb x) bound.

(** The names read before anything bound them, with [bound] the names known
    at the start. *)
Fixpoint unbound (bound : list string) (lines : list string) : list string :=
  match lines with
  | [] => []
  | l :: rest =>
      filter (fun x => negb (known bound x)) (line_uses l)
        ++ unbound (line_binds l ++ bound) rest
  end.

(** The one builtin name the notebook reads. *)
Definition builtins : list string := [ "True" ].

(** Names bound but read by no line. *)
Definition never_read (lines : list string) : list string :=
  filter (fun x => negb (existsb (fun l => known (line_uses l) x) lines))
         (flat_map line_binds lines).

End Scope.

(** ** Instruments, outputs and the setup of the runs *)

Module Protocol.

Import Py.

(** The code of the last line of a cell that holds code. *)
Definition last_code (c : cell) : option string :=
  last (map Some (filter (fun l => negb (is_empty l))
                         (map code_of (code_source c)))) None.

(** [station.add_component(x)]: the variable added. *)
Definition added_component (code : string) : option string :=
  match method_call "station" code with
  | Some (m, args) =>
      if String.eqb m "add_component" then Some (trim args) else None
  | None => None
  end.

(** An assignment [x = callee(args)]: the variable, the callee and the
    argument text. *)
Definition creation (line : string) : option (string * string * string) :=
  match Repo.assigned line with
  | Some x =>
      match cut "=" (code_of line) with
      | Some (_, rhs) =>
          match cut "(" (trim rhs) with
          | Some (callee, rest) => Some (x, callee, call_args 0 rest)
          | None => None
          end
      | None => None
      end
  | None => None
  end.

(** The name literal the variable [x] was created with, by the latest
    creation among [lines]. *)
Fixpoint created_name (x : string) (lines : list string) : option string :=
  match lines with
  | [] => None
  | l :: rest =>
      match created_name x rest with
      | Some n => Some n
      | None =>
          match creation l with
          | Some (y, _, args) =>
              if String.eqb x y then first_literal args else None
          | None => None
          end
      end
  end.

(** The lines of the notebook's code before the cell number [k]. *)
Definition code_before (nb : notebook) (k : nat) : list string :=
  flat_map code_source (firstn k (cells nb)).

(** Python's [repr] of a string without quotes or escapes in it. *)
Definition repr (s : string) : string := "'" ++ s ++ "'".

Definition execute_results (c : cell) : list (nat * list string) :=
  flat_map (fun o => match o with
                     | ExecuteResult n t => [(n, t)]
                     | Stream _ _ => []
                     end) (outputs_of c).

Definition execution_count_of (c : cell) : option nat :=
  match c with Code n _ _ => n | Markdown _ => None end.

(** What a code cell shows as its value: when its last statement adds a
    component to the station, the [repr] of the component's variable, under
    the cell's execution count; nothing otherwise. *)
Definition expected_results (c : cell) : list (nat * list string) :=
  match last_code c with
  | Some code =>
      match added_component code, execution_count_of c with
      | Some x, Some n => [(n, [repr x])]
      | _, _ => []
      end
  | None => []
  end.

(** Every [station.add_component(x)] of the cell number [k] adds a variable
    created, in this cell or before, with its own name as name literal. *)
Definition components_named (nb : notebook) (k : nat) (c : cell) : bool :=
  forallb (fun l => match added_component l with
                    | Some x =>
                        match created_name x (code_before nb (S k)) with
                        | Some n => String.eqb n x
                        | None => false
                        end
                    | None => true
                    end)
          (code_source c).

Fixpoint indexed {A : Type} (k : nat) (l : list A) : list (nat * A) :=
  match l with
  | [] => []
  | x :: l' => (k, x) :: indexed (S k) l'
  end.

(** The execution counts of the executed cells, in document order. *)
Definition execution_counts (nb : notebook) : list nat :=
  flat_map (fun c => match execution_count_of c with
                     | Some n => [n]
                     | None => []
                     end) (cells nb).

Fixpoint increasing (l : list nat) : bool :=
  match l with
  | a :: ((b :: _) as l') => (a <? b) && increasing l'
  | _ => true
  end.

(** *** The setup of a run *)

Definition last_arg (p : stmt -> option string) (ss : list stmt)
  : option string :=
  fold_left (fun acc s => match p s with Some a => Some a | None => acc end)
            ss None.

Definition detector_arg (s : stmt) : option string :=
  match s with set_detector_function d => Some d | _ => None end.
Definition points_arg (s : stmt) : option string :=
  match s with set_sweep_points p => Some p | _ => None end.
Definition points_2D_arg (s : stmt) : option string :=
  match s with set_sweep_points_2D p => Some p | _ => None end.
Definition persist_arg (s : stmt) : option string :=
  match s with
  | other m a => if String.eqb m "persist_mode" then Some a else None
  | _ => None
  end.

(** The detector expression in force at a run. *)
Definition run_detector (r : Runs.run_site) : option string :=
  last_arg detector_arg (Runs.before r).

(** The sweep functions in force at a run, counting those set before an
    earlier run of the cell. *)
Definition run_sweeps_all (r : Runs.run_site) : list string :=
  Runs.sweep_exprs [] (Runs.before r).

(** The value the variable [x] holds after the lines [lines]: the right-hand
    side of its latest assignment. *)
Fixpoint value_of (x : string) (lines : list string) : option string :=
  match lines with
  | [] => None
  | l :: rest =>
      match value_of x rest with
      | Some v => Some v
      | None =>
          match Repo.assigned l, cut "=" (code_of l) with
          | Some y, Some (_, rhs) =>
              if String.eqb x y then Some (trim rhs) else None
          | _, _ => None
          end
      end
  end.

(** An expression that is a variable stands for the variable's value. *)
Definition deref (lines : list string) (e : string) : string :=
  match value_of e lines with
  | Some v => v
  | None => e
  end.

(** [np.linspace(a, b, n)]: the three arguments. *)
Definition linspace (e : string) : option (string * string * string) :=
  match strip_prefix "np.linspace(" e with
  | Some rest =>
      match map trim (split_on "," EmptyString (call_args 0 rest)) with
      | [ a; b; n ] => Some (a, b, n)
      | _ => None
      end
  | None => None
  end.

(** The last component of a dotted expression without a call. *)
Definition attribute (e : string) : option string :=
  if contains "(" e then None
  else match rev (split_on "." EmptyString e) with
       | p :: _ :: _ => Some p
       | _ => None
       end.

(** The name of the callee of a call expression, without its module path. *)
Definition callee (e : string) : option string :=
  match cut "(" e with
  | Some (f, _) => Some (last (split_on "." EmptyString f) EmptyString)
  | None => None
  end.

(** The names the log of a run prints after its labels: sweep functions in
    order, then the detector. *)
Definition logged_sweeps (log : list string) : list string :=
  flat_map (fun l =>
              match Runs.labelled "Sweep function: " l,
                    Runs.labelled "Sweep function 0: " l,
                    Runs.labelled "Sweep function 1: " l with
              | Some n, _, _ => [n]
              | _, Some n, _ => [n]
              | _, _, Some n => [n]
              | _, _, _ => []
              end) log.

Definition logged_detector (log : list string) : list string :=
  flat_map (fun l => match Runs.labelled "Detector function: " l with
                     | Some n => [n]
                     | None => []
                     end) log.

(** The [sweep_control] a sweep-function expression passes, when it
    constructs the sweep function. *)
Definition control (e : string) : option string :=
  match Runs.constructor_call e with
  | Some (_, args) => kwarg "sweep_control" args
  | None => None
  end.

(** The sweep points in force at a run, with a variable replaced by the
    value the cell [c] assigns to it. *)
Definition run_points (c : cell) (r : Runs.run_site) : option string :=
  match last_arg points_arg (Runs.before r) with
  | Some p => Some (deref (code_source c) p)
  | None => None
  end.

(** The name a sweep function is logged under, where the logs follow a rule:
    a constructed sweep function by the name of its class; the first sweep
    function of a run that is not adaptive, when it is a parameter [obj.p],
    by [p]. *)
Definition expected_sweep_name (adaptive : bool) (i : nat) (e : string)
  : option string :=
  match Runs.constructor_call e with
  | Some (f, _) => Some f
  | None => if (i =? 0) && negb adaptive then attribute e else None
  end.

(** What a run measures: sweep functions, sweep points and detector. *)
Definition setup (r : Runs.run_site)
  : list string * option string * option string :=
  (run_sweeps_all r, last_arg points_arg (Runs.before r), run_detector r).

(** Each element with its successor. *)
Definition pairs {A : Type} (l : list A) : list (A * A) := combine l (tl l).

Definition all_runs (nb : notebook) : list Runs.run_site :=
  flat_map Runs.cell_runs (cells nb).

(** *** Logical lines *)

Fixpoint depth_after (d : nat) (s : string) : nat :=
  match s with
  | EmptyString => d
  | String c s' =>
      if Ascii.eqb c "(" || Ascii.eqb c "[" || Ascii.eqb c "{"
      then depth_after (S d) s'
      else if Ascii.eqb c ")" || Ascii.eqb c "]" || Ascii.eqb c "}"
      then depth_after (pred d) s'
      else depth_after d s'
  end.

(** Python joins a physical line with the following ones while a bracket
    is open.  [open] is the text gathered so far with its bracket depth. *)
Fixpoint logical_lines (open : option (string * nat)) (lines : list string)
  : list string :=
  match lines with
  | [] => match open with Some (t, _) => [t] | None => [] end
  | l :: rest =>
      let (t, d0) := match open with
                     | Some (t, d) => (t ++ " ", d)
                     | None => (EmptyString, 0)
                     end in
      let code := code_of l in
      let d := depth_after d0 code in
      match d with
      | O => (t ++ code) :: logical_lines None rest
      | S _ => logical_lines (Some (t ++ code, d)) rest
      end
  end.

(** The list display stored under the string key [k] of a dict display. *)
Definition dict_list (k args : string) : option (list string) :=
  match cut ("'" ++ k ++ "':") args with
  | Some (_, rest) =>
      match strip_prefix "[" (skip_spaces rest) with
      | Some _ => Some (list_items (skip_spaces rest))
      | None => None
      end
  | None => None
  end.

(** The expression stored under the string key [k] of a dict display, when
    it is a name. *)
Definition dict_name (k args : string) : option string :=
  match cut ("'" ++ k ++ "':") args with
  | Some (_, rest) => Some (fst (take_ident (skip_spaces rest)))
  | None => None
  end.

(** The argument text of the calls [MC.set_adaptive_function_parameters] of
    a cell, read from its logical lines. *)
Definition adaptive_parameters (c : cell) : list string :=
  flat_map (fun l => match method_call "MC" l with
                     | Some (m, args) =>
                         if String.eqb m "set_adaptive_function_parameters"
                         then [args] else []
                     | None => []
                     end)
           (logical_lines None (code_source c)).

End Protocol.

(** ** Scalars of the CI configuration *)

Module Ci.

(** The scalar written after the top-level key [k]. *)
Definition scalar_of (cfg : list Travis.section) (k : string) : option string :=
  hd_error (map Travis.scalar
                (filter (fun s => String.eqb (Travis.key s) k) cfg)).

End Ci.

(** * Properties *)

(** ** Text *)

Lemma append_nil_r (s : string) : s ++ EmptyString = s.
Proof. induction s as [|c s IH]; simpl; [reflexivity | now rewrite IH]. Qed.

Lemma strip_prefix_sound (p s r : string) :
  strip_prefix p s = Some r -> s = p ++ r.
Proof.
  revert s; induction p as [|a p IH]; intros s H.
  - simpl in H. now inversion H.
  - destruct s as [|b s]; simpl in H; [discriminate|].
    destruct (Ascii.eqb a b) eqn:E; [|discriminate].
    apply Ascii.eqb_eq in E; subst b.
    simpl. f_equal. now apply IH.
Qed.

Lemma cut_sound (needle s a b : string) :
  cut needle s = Some (a, b) -> s = a ++ needle ++ b.
Proof.
  revert a; induction s as [|c s IH]; intros a H.
  - simpl in H. destruct (strip_prefix needle EmptyString) eqn:E.
    + inversion H; subst. now apply strip_prefix_sound in E.
    + discriminate.
  - simpl in H. destruct (strip_prefix needle (String c s)) eqn:E.
    + inversion H; subst. now apply strip_prefix_sound in E.
    + destruct (cut needle s) as [[a' b']|] eqn:E'; [|discriminate].
      inversion H; subst. simpl. f_equal. now apply IH.
Qed.

Lemma is_empty_false (s : string) : is_empty s = false -> s <> EmptyString.
Proof. destruct s; simpl; congruence. Qed.

Lemma labelled_sound (label line n : string) :
  Runs.labelled label line = Some n ->
  line = label ++ n ++ nl /\ n <> EmptyString.
Proof.
  unfold Runs.labelled. intros H.
  destruct (strip_prefix label line) as [rest|] eqn:E; [|discriminate].
  destruct (cut nl rest) as [[m [|? ?]]|] eqn:E'; try discriminate.
  destruct (is_empty m) eqn:Em; [discriminate|].
  inversion H; subst m.
  apply strip_prefix_sound in E. apply cut_sound in E'.
  split; [|now apply is_empty_false].
  rewrite E, E'. now rewrite append_nil_r.
Qed.

Lemma progress_line_sound (l pct e t : string) :
  Runs.progress_line l = Some (pct, e, t) ->
  skip_spaces l
  = pct ++ "% completed " ++ tab ++ "elapsed time: " ++ e
        ++ " " ++ tab ++ "time left: " ++ t ++ nl
  /\ Runs.all_digits pct = true /\ pct <> EmptyString.
Proof.
  unfold Runs.progress_line. intros H.
  destruct (cut _ (skip_spaces l)) as [[p rest]|] eqn:E1; [|discriminate].
  destruct (cut _ rest) as [[e' rest']|] eqn:E2; [|discriminate].
  destruct (cut nl rest') as [[t' [|? ?]]|] eqn:E3; try discriminate.
  destruct (Runs.all_digits p) eqn:Ed; simpl in H; [|discriminate].
  destruct (is_empty p) eqn:Ep; simpl in H; [discriminate|].
  destruct (ends_with "s" e' && ends_with "s" t'); [|discriminate].
  inversion H; subst.
  apply cut_sound in E1, E2, E3.
  split; [|split; [assumption | now apply is_empty_false]].
  rewrite E1, E2, E3. unfold nl, tab. simpl. reflexivity.
Qed.

(** ** Order of the CI steps *)

Lemma nth_error_nil_none {A : Type} (i : nat) : nth_error (@nil A) i = None.
Proof. now destruct i. Qed.

Lemma in_phase_true (ph : string) (s : string * string) :
  Travis.in_phase ph s = true -> fst s = ph.
Proof. unfold Travis.in_phase. apply String.eqb_eq. Qed.

Lemma in_phase_pair (ph c : string) : Travis.in_phase ph (ph, c) = true.
Proof. unfold Travis.in_phase. simpl. apply String.eqb_refl. Qed.

(** [Travis.precedes] decides what it says: every step of phase [a] has a
    smaller position than every step of phase [b]. *)
Lemma precedes_sound (a b : string) (steps : list (string * string)) :
  a <> b ->
  forall seen, Travis.precedes a b seen steps = true ->
  (seen = true -> forall i c, nth_error steps i <> Some (a, c))
  /\ (forall i j c c',
        nth_error steps i = Some (a, c) ->
        nth_error steps j = Some (b, c') -> i < j).
Proof.
  intros Hab. induction steps as [|s rest IH]; intros seen H.
  - split; intros; rewrite nth_error_nil_none in *; discriminate.
  - simpl in H. destruct (Travis.in_phase a s) eqn:Ea.
    + apply andb_true_iff in H as [Hseen Hrest].
      destruct seen; [discriminate|].
      destruct (IH false Hrest) as [_ IH2].
      split; [discriminate|].
      intros i j c c' Hi Hj.
      destruct j as [|j].
      * simpl in Hj. inversion Hj; subst s.
        apply in_phase_true in Ea. simpl in Ea. congruence.
      * destruct i as [|i]; [lia|].
        simpl in Hi, Hj. specialize (IH2 i j c c' Hi Hj). lia.
    + destruct (IH _ H) as [IH1 IH2].
      split.
      * intros -> i c Hi. destruct i as [|i].
        -- simpl in Hi. inversion Hi; subst s.
           rewrite in_phase_pair in Ea. discriminate.
        -- simpl in Hi. now apply (IH1 eq_refl i c).
      * intros i j c c' Hi Hj.
        destruct i as [|i].
        -- simpl in Hi. inversion Hi; subst s.
           rewrite in_phase_pair in Ea. discriminate.
        -- destruct j as [|j].
           ++ simpl in Hi, Hj. inversion Hj; subst s.
              rewrite in_phase_pair, orb_true_r in IH1.
              now destruct (IH1 eq_refl i c).
           ++ simpl in Hi, Hj. specialize (IH2 i j c c' Hi Hj). lia.
Qed.

Lemma precedes_positions (a b : string) (steps : list (string * string)) :
  a <> b ->
  Travis.precedes a b false steps = true ->
  forall i j c c',
    nth_error steps i = Some (a, c) ->
    nth_error steps j = Some (b, c') -> i < j.
Proof. intros Hab H. exact (proj2 (precedes_sound a b steps Hab false H)). Qed.

(** ** The supplied files *)

(** C1: every supplied file is the demonstration notebook or the CI
    configuration [.travis.yml]; no file is a Python source file, and the
    Python code present (the code cells of the notebook) declares no function
    and no class: it only uses objects, it implements none. *)
Theorem supplied_files_hold_no_implementation :
  Forall (fun f => Repo.is_demo_notebook f = true \/ Repo.is_ci_config f = true)
         Repo.files
  /\ Forall (fun f => Repo.is_python_source f = false) Repo.files
  /\ Repo.declared_names Repo.all_python_lines = [].
Proof.
  split; [|split].
  - apply Forall_cons; [right; vm_compute; reflexivity|].
    apply Forall_cons; [left; vm_compute; reflexivity|].
    apply Forall_nil.
  - apply Forall_cons; [vm_compute; reflexivity|].
    apply Forall_cons; [vm_compute; reflexivity|].
    apply Forall_nil.
  - vm_compute. reflexivity.
Qed.

(** ** The CI configuration *)

(** C3: the [script] phase is one step, [py.test] over [pycqed/tests] (a
    directory called [tests]) with [--cov] options; the [install] phase is a
    non-empty list of [pip install] steps, and each of them runs before the
    [script] step, both in the order Travis runs the phases and in the order
    the file lists them. *)
Theorem ci_runs_tests_with_coverage_after_install :
  map Travis.test_run (Travis.commands Travis.config "script")
  = [ Some ("pycqed/tests",
            [ "--cov=pycqed"; "--cov-report"; "xml";
              "--cov-config=.coveragerc" ]) ]
  /\ Travis.last_component "pycqed/tests" = "tests"
  /\ Travis.commands Travis.config "install" <> []
  /\ Forall (fun cmd => Travis.installs_packages cmd = true)
            (Travis.commands Travis.config "install")
  /\ (forall i j c c',
        nth_error (Travis.run_order Travis.config) i = Some ("install", c) ->
        nth_error (Travis.run_order Travis.config) j = Some ("script", c') ->
        i < j)
  /\ (forall i j c c',
        nth_error (Travis.file_order Travis.config) i = Some ("install", c) ->
        nth_error (Travis.file_order Travis.config) j = Some ("script", c') ->
        i < j).
Proof.
  split; [vm_compute; reflexivity|].
  split; [vm_compute; reflexivity|].
  split; [|split; [|split]].
  - vm_compute. discriminate.
  - apply Forall_forall. intros cmd Hin.
    assert (H : forallb Travis.installs_packages
                        (Travis.commands Travis.config "install") = true)
      by (vm_compute; reflexivity).
    rewrite forallb_forall in H. now apply H.
  - apply precedes_positions; [discriminate | vm_compute; reflexivity].
  - apply precedes_positions; [discriminate | vm_compute; reflexivity].
Qed.

Lemma ci_runs_tests_with_coverage_after_install_witness :
  nth_error (Travis.run_order Travis.config) 6
  = Some ("install", "pip install -e .")
  /\ nth_error (Travis.run_order Travis.config) 10
     = Some ("script",
             "py.test pycqed/tests --cov=pycqed --cov-report xml --cov-config=.coveragerc")
  /\ 6 < 10.
Proof.
  split; [vm_compute; reflexivity|].
  split; [vm_compute; reflexivity|].
  apply (proj1 (proj2 (proj2 (proj2 (proj2
                  ci_runs_tests_with_coverage_after_install))))
           6 10 "pip install -e ."
           "py.test pycqed/tests --cov=pycqed --cov-report xml --cov-config=.coveragerc");
    vm_compute; reflexivity.
Defined.

(** C10: the [before_script] phase exports [DISPLAY=:99.0], starts xvfb and
    sleeps 3 seconds, in this order, and each of its steps runs before the
    [script] step, in the order Travis runs the phases and in the order the
    file lists them. *)
Theorem headless_display_is_set_up_before_tests :
  Travis.commands Travis.config "before_script"
  = [ "export DISPLAY=:99.0"; "sh -e /etc/init.d/xvfb start"; "sleep 3" ]
  /\ (forall i j c c',
        nth_error (Travis.run_order Travis.config) i
        = Some ("before_script", c) ->
        nth_error (Travis.run_order Travis.config) j = Some ("script", c') ->
        i < j)
  /\ (forall i j c c',
        nth_error (Travis.file_order Travis.config) i
        = Some ("before_script", c) ->
        nth_error (Travis.file_order Travis.config) j = Some ("script", c') ->
        i < j).
Proof.
  split; [vm_compute; reflexivity|].
  split; apply precedes_positions;
    first [discriminate | vm_compute; reflexivity].
Qed.

Lemma headless_display_is_set_up_before_tests_witness :
  nth_error (Travis.run_order Travis.config) 9 = Some ("before_script", "sleep 3")
  /\ nth_error (Travis.run_order Travis.config) 10
     = Some ("script",
             "py.test pycqed/tests --cov=pycqed --cov-report xml --cov-config=.coveragerc")
  /\ 9 < 10.
Proof.
  split; [vm_compute; reflexivity|].
  split; [vm_compute; reflexivity|].
  apply (proj1 (proj2 headless_display_is_set_up_before_tests)
           9 10 "sleep 3"
           "py.test pycqed/tests --cov=pycqed --cov-report xml --cov-config=.coveragerc");
    vm_compute; reflexivity.
Defined.

(** ** Deciding properties of lists by evaluation *)

Lemma Forall_by_forallb {A : Type} (p : A -> bool) (P : A -> Prop)
      (l : list A) :
  (forall x, p x = true -> P x) -> forallb p l = true -> Forall P l.
Proof.
  intros Hp H. apply Forall_forall. intros x Hin.
  rewrite forallb_forall in H. auto.
Qed.

Lemma not_in_by_existsb (x : string) (l : list string) :
  existsb (String.eqb x) l = false -> ~ In x l.
Proof.
  intros H Hin.
  assert (existsb (String.eqb x) l = true) as H'.
  { apply existsb_exists. exists x. split; [assumption | apply String.eqb_refl]. }
  congruence.
Qed.

(** ** Errors *)

(** C4: no statement of the notebook's code handles or signals an error (no
    [try], [except], [finally], [raise] or [assert]), and the CI
    configuration has no failure phase or fallback.  Of all the lines of the
    supplied files exactly one mentions an error: the warning
    [Error getting or interpreting *IDN?], which occurs once in the captured
    outputs, on the stderr stream of the cell that creates the instrument
    monitor; nothing on stdout mentions an error. *)
Theorem only_error_content_is_the_idn_warning :
  filter Repo.handles_errors Repo.all_python_lines = []
  /\ Repo.ci_handles_errors Travis.config = false
  /\ filter Repo.error_related Repo.all_text_lines
     = [ ln "WARNING:root:Error getting or interpreting *IDN?: ''" ]
  /\ List.length
       (flat_map (occurrences "Error getting or interpreting *IDN?")
                 (all_output_lines Demo.nb)) = 1
  /\ stderr Demo.cell_3
     = [ ln "WARNING:root:Error getting or interpreting *IDN?: ''" ]
  /\ flat_map stderr (cells Demo.nb) = stderr Demo.cell_3
  /\ filter Repo.error_related (flat_map stdout (cells Demo.nb)) = [].
Proof.
  repeat split; vm_compute; reflexivity.
Qed.

(** ** External objects *)

(** C5: each of [MeasurementControl], [None_Sweep], [Dummy_Detector_Hard],
    [DummyParHolder] and [nelder_mead] is reached through an import from a
    pycqed module (by its own name or as an attribute of the imported
    module) and is used by a statement of the notebook; none of them is
    declared or assigned by the notebook's code, and the CI configuration
    does not mention them. *)
Theorem external_objects_are_imported_not_defined :
  map (fun x => Repo.resolve x Repo.all_python_lines) Repo.external_objects
  = [ Some "pycqed.measurement.measurement_control.MeasurementControl";
      Some "pycqed.measurement.sweep_functions.None_Sweep";
      Some "pycqed.measurement.detector_functions.Dummy_Detector_Hard";
      Some "pycqed.instrument_drivers.physical_instruments.dummy_instruments.DummyParHolder";
      Some "pycqed.measurement.optimization.nelder_mead" ]
  /\ Forall (fun x => Repo.used x Repo.all_python_lines = true)
            Repo.external_objects
  /\ Forall (fun x => ~ In x (Repo.defined_names Repo.all_python_lines))
            Repo.external_objects
  /\ Forall (fun x => Forall (fun l => Repo.mentions x l = false)
                             Travis.travis_yml)
            Repo.external_objects.
Proof.
  split; [vm_compute; reflexivity|].
  split; [|split].
  - apply (Forall_by_forallb (fun x => Repo.used x Repo.all_python_lines));
      [auto | vm_compute; reflexivity].
  - apply (Forall_by_forallb
             (fun x => negb (existsb (String.eqb x)
                               (Repo.defined_names Repo.all_python_lines)))).
    + intros x Hx. apply not_in_by_existsb.
      now apply negb_true_iff in Hx.
    + vm_compute; reflexivity.
  - apply (Forall_by_forallb
             (fun x => forallb (fun l => negb (Repo.mentions x l))
                               Travis.travis_yml)).
    + intros x Hx.
      apply (Forall_by_forallb (fun l => negb (Repo.mentions x l)));
        [|assumption].
      intros l Hl. now apply negb_true_iff in Hl.
    + vm_compute; reflexivity.
Qed.

(** ** Sweep functions *)

(** C7: the notebook constructs seven sweep functions (calls of [None_Sweep]
    passed to [MC]); each passes [sweep_control] as ['hard'] or ['soft'], and
    every occurrence of [sweep_control] in the supplied files is followed by
    one of these two values, both of which occur.  The notebook's text says
    what the two mean: the acquisition loop of a hard measurement happens in
    the hardware, that of a soft measurement in the software. *)
Theorem sweep_control_is_soft_or_hard :
  List.length (Runs.constructed_sweeps Demo.nb) = 7
  /\ Forall (fun c => Py.kwarg "sweep_control" (snd c) = Some "hard"
                      \/ Py.kwarg "sweep_control" (snd c) = Some "soft")
            (Runs.constructed_sweeps Demo.nb)
  /\ Forall (fun v => v = Some "hard" \/ v = Some "soft")
            (Repo.sweep_control_values Repo.all_text_lines)
  /\ In (Some "hard") (Repo.sweep_control_values Repo.all_text_lines)
  /\ In (Some "soft") (Repo.sweep_control_values Repo.all_text_lines)
  /\ In "A hard measurement is a measurement where the data acquisition loop happens in the **hard**ware."
        (markdown_source Demo.cell_6)
  /\ In "A soft measurement is a a measurement where the data acquisition loop occurs in the **soft**ware"
        (markdown_source Demo.cell_10).
Proof.
  split; [vm_compute; reflexivity|].
  split; [|split; [|split; [|split; [|split]]]];
    [| | | | right; left; reflexivity | right; left; reflexivity].
  - apply (Forall_by_forallb
             (fun c => match Py.kwarg "sweep_control" (snd c) with
                       | Some v => String.eqb v "hard" || String.eqb v "soft"
                       | None => false
                       end)).
    + intros c Hc. destruct (Py.kwarg "sweep_control" (snd c)) as [v|];
        [|discriminate].
      apply orb_true_iff in Hc as [Hc|Hc]; apply String.eqb_eq in Hc; subst;
        auto.
    + vm_compute; reflexivity.
  - apply (Forall_by_forallb
             (fun v => match v with
                       | Some v => String.eqb v "hard" || String.eqb v "soft"
                       | None => false
                       end)).
    + intros [v|] Hv; [|discriminate].
      apply orb_true_iff in Hv as [Hv|Hv]; apply String.eqb_eq in Hv; subst;
        auto.
    + vm_compute; reflexivity.
  - vm_compute. auto.
  - vm_compute. tauto.
Qed.

(** ** Runs and their logs *)

Lemma in_captured_runs (c : cell) (r : Runs.run_site) (log : list string) :
  In c (cells Demo.nb) -> In (r, log) (Runs.captured c) ->
  In (r, log) (Runs.captured_runs Demo.nb).
Proof.
  intros Hc Hr. unfold Runs.captured_runs. apply in_flat_map.
  exists c. now split.
Qed.

Lemma is_labelled_sound (label line : string) :
  Runs.is_labelled label line = true ->
  exists n, n <> EmptyString /\ line = label ++ n ++ nl.
Proof.
  unfold Runs.is_labelled.
  destruct (Runs.labelled label line) as [n|] eqn:E; [|discriminate].
  intros _. apply labelled_sound in E as [E1 E2]. now exists n.
Qed.

Lemma no_sweep_line_sound (rest : list string) :
  Runs.no_sweep_line rest = true ->
  Forall (fun l => Runs.mentions_sweep l = false) rest.
Proof.
  apply Forall_by_forallb. intros l H. now apply negb_true_iff in H.
Qed.

(** The shape of a run log, as the claims word it. *)
Lemma header_ok_sound (nm : string) (dims : nat) (log : list string) :
  Runs.header_ok nm dims log = true ->
  exists sweeps det rest,
    log = ("Starting measurement: " ++ nm ++ nl)
            :: sweeps ++ ("Detector function: " ++ det ++ nl) :: rest
    /\ det <> EmptyString
    /\ Forall (fun l => Runs.mentions_sweep l = false) rest
    /\ ((dims = 1
         /\ exists s, s <> EmptyString
                      /\ sweeps = [ "Sweep function: " ++ s ++ nl ])
        \/ (dims = 2
            /\ exists s0 s1,
                s0 <> EmptyString /\ s1 <> EmptyString
                /\ sweeps = [ "Sweep function 0: " ++ s0 ++ nl;
                              "Sweep function 1: " ++ s1 ++ nl ])).
Proof.
  unfold Runs.header_ok. intros H.
  destruct dims as [|[|[|dims]]]; try discriminate.
  - destruct log as [|start [|sw [|det rest]]]; try discriminate.
    apply andb_true_iff in H as [H Hrest].
    apply andb_true_iff in H as [H Hdet].
    apply andb_true_iff in H as [H Hsw].
    apply String.eqb_eq in H; subst start.
    destruct (is_labelled_sound _ _ Hsw) as (s & Hs & ->).
    destruct (is_labelled_sound _ _ Hdet) as (d & Hd & ->).
    apply no_sweep_line_sound in Hrest.
    exists [ "Sweep function: " ++ s ++ nl ], d, rest.
    split; [reflexivity|]. split; [assumption|].
    split; [assumption|].
    left. split; [reflexivity|]. now exists s.
  - destruct log as [|start [|sw0 [|sw1 [|det rest]]]]; try discriminate.
    apply andb_true_iff in H as [H Hrest].
    apply andb_true_iff in H as [H Hdet].
    apply andb_true_iff in H as [H Hsw1].
    apply andb_true_iff in H as [H Hsw0].
    apply String.eqb_eq in H; subst start.
    destruct (is_labelled_sound _ _ Hsw0) as (s0 & Hs0 & ->).
    destruct (is_labelled_sound _ _ Hsw1) as (s1 & Hs1 & ->).
    destruct (is_labelled_sound _ _ Hdet) as (d & Hd & ->).
    apply no_sweep_line_sound in Hrest.
    exists [ "Sweep function 0: " ++ s0 ++ nl;
             "Sweep function 1: " ++ s1 ++ nl ], d, rest.
    split; [reflexivity|]. split; [assumption|].
    split; [assumption|].
    right. split; [reflexivity|]. now exists s0, s1.
Qed.

(** C9: in every cell the captured stdout holds one log per call of
    [MC.run], and in a cell with runs nothing is printed before the first
    log.  The log of a run starts with [Starting measurement: <name>], where
    <name> is the string passed to [MC.run]; then come the sweep function
    lines, a single [Sweep function: <s>] for a run with one sweep function
    and [Sweep function 0: <s0>], [Sweep function 1: <s1>] for a run with
    two, then [Detector function: <d>]; no later line of the log is a sweep
    function line. *)
Theorem run_logs_start_with_their_header :
  forall c, In c (cells Demo.nb) ->
    List.length (Runs.cell_logs c) = List.length (Runs.cell_runs c)
    /\ (Runs.cell_runs c <> [] -> fst (Runs.group_logs (stdout c)) = [])
    /\ forall r log, In (r, log) (Runs.captured c) ->
         exists sweeps det rest,
           log = ("Starting measurement: " ++ Runs.name r ++ nl)
                   :: sweeps ++ ("Detector function: " ++ det ++ nl) :: rest
           /\ det <> EmptyString
           /\ Forall (fun l => Runs.mentions_sweep l = false) rest
           /\ ((Runs.sweep_dims r = 1
                /\ exists s, s <> EmptyString
                             /\ sweeps = [ "Sweep function: " ++ s ++ nl ])
               \/ (Runs.sweep_dims r = 2
                   /\ exists s0 s1,
                       s0 <> EmptyString /\ s1 <> EmptyString
                       /\ sweeps = [ "Sweep function 0: " ++ s0 ++ nl;
                                     "Sweep function 1: " ++ s1 ++ nl ])).
Proof.
  intros c Hc.
  assert (H : forallb
                (fun c =>
                   (List.length (Runs.cell_logs c)
                    =? List.length (Runs.cell_runs c))
                   && (match Runs.cell_runs c with
                       | [] => true
                       | _ :: _ =>
                           match fst (Runs.group_logs (stdout c)) with
                           | [] => true
                           | _ :: _ => false
                           end
                       end)
                   && forallb
                        (fun rl => Runs.header_ok (Runs.name (fst rl))
                                     (Runs.sweep_dims (fst rl)) (snd rl))
                        (Runs.captured c))
                (cells Demo.nb) = true) by (vm_compute; reflexivity).
  rewrite forallb_forall in H. specialize (H c Hc).
  apply andb_true_iff in H as [H H3].
  apply andb_true_iff in H as [H1 H2].
  split; [now apply Nat.eqb_eq|]. split.
  - intros Hruns. destruct (Runs.cell_runs c); [congruence|].
    destruct (fst (Runs.group_logs (stdout c))); [reflexivity | discriminate].
  - intros r log Hin. rewrite forallb_forall in H3.
    apply (header_ok_sound _ _ _ (H3 (r, log) Hin)).
Qed.

Lemma run_logs_start_with_their_header_witness :
  In Demo.cell_18 (cells Demo.nb)
  /\ match Runs.captured Demo.cell_18 with
     | (r, log) :: _ =>
         Runs.name r = "test"
         /\ exists sweeps det rest,
              log = ("Starting measurement: " ++ Runs.name r ++ nl)
                      :: sweeps ++ ("Detector function: " ++ det ++ nl) :: rest
              /\ det <> EmptyString
              /\ Forall (fun l => Runs.mentions_sweep l = false) rest
              /\ ((Runs.sweep_dims r = 1
                   /\ exists s, s <> EmptyString
                                /\ sweeps = [ "Sweep function: " ++ s ++ nl ])
                  \/ (Runs.sweep_dims r = 2
                      /\ exists s0 s1,
                          s0 <> EmptyString /\ s1 <> EmptyString
                          /\ sweeps = [ "Sweep function 0: " ++ s0 ++ nl;
                                        "Sweep function 1: " ++ s1 ++ nl ]))
     | [] => False
     end.
Proof.
  assert (Hin : In Demo.cell_18 (cells Demo.nb)).
  { simpl. do 18 right. left. reflexivity. }
  split; [exact Hin|].
  destruct (Runs.captured Demo.cell_18) as [|[r log] l] eqn:E;
    [vm_compute in E; discriminate|].
  split.
  - vm_compute in E. inversion E. reflexivity.
  - apply (proj2 (proj2 (run_logs_start_with_their_header Demo.cell_18 Hin))
             r log).
    rewrite E. left. reflexivity.
Defined.

(** C8: every call of [MC.run] in the notebook comes, within its cell, after
    a call that sets the detector function.  A run in adaptive mode comes
    after [set_sweep_functions] and [set_adaptive_function_parameters]; any
    other run comes after [set_sweep_function] and [set_sweep_points]; a run
    with [mode='2D'] moreover comes after [set_sweep_function_2D] and
    [set_sweep_points_2D].  The only modes passed are none (1D), ['2D'] and
    ['adaptive']. *)
Theorem runs_are_configured_before_they_start :
  forall c r, In c (cells Demo.nb) -> In r (Runs.cell_runs c) ->
    Runs.sets_before Runs.sets_detector_function r = true
    /\ (Runs.mode r = None \/ Runs.mode r = Some "2D"
        \/ Runs.mode r = Some "adaptive")
    /\ (Runs.is_mode "adaptive" r = true ->
        Runs.sets_before Runs.sets_sweep_functions r = true
        /\ Runs.sets_before Runs.sets_adaptive_function_parameters r = true)
    /\ (Runs.is_mode "adaptive" r = false ->
        Runs.sets_before Runs.sets_sweep_function r = true
        /\ Runs.sets_before Runs.sets_sweep_points r = true)
    /\ (Runs.is_mode "2D" r = true ->
        Runs.sets_before Runs.sets_sweep_function_2D r = true
        /\ Runs.sets_before Runs.sets_sweep_points_2D r = true).
Proof.
  intros c r Hc Hr.
  assert (H : forallb
                (fun r =>
                   Runs.sets_before Runs.sets_detector_function r
                   && (match Runs.mode r with
                       | None => true
                       | Some m => String.eqb m "2D" || String.eqb m "adaptive"
                       end)
                   && (if Runs.is_mode "adaptive" r
                       then Runs.sets_before Runs.sets_sweep_functions r
                            && Runs.sets_before
                                 Runs.sets_adaptive_function_parameters r
                       else Runs.sets_before Runs.sets_sweep_function r
                            && Runs.sets_before Runs.sets_sweep_points r)
                   && (if Runs.is_mode "2D" r
                       then Runs.sets_before Runs.sets_sweep_function_2D r
                            && Runs.sets_before Runs.sets_sweep_points_2D r
                       else true))
                (flat_map Runs.cell_runs (cells Demo.nb)) = true)
    by (vm_compute; reflexivity).
  rewrite forallb_forall in H.
  assert (Hin : In r (flat_map Runs.cell_runs (cells Demo.nb)))
    by (apply in_flat_map; exists c; now split).
  specialize (H r Hin).
  apply andb_true_iff in H as [H H2D].
  apply andb_true_iff in H as [H Hmode].
  apply andb_true_iff in H as [Hdet Hm].
  split; [assumption|]. split; [|split; [|split]].
  - destruct (Runs.mode r) as [m|]; [|now left].
    apply orb_true_iff in Hm as [Hm|Hm]; apply String.eqb_eq in Hm; subst;
      auto.
  - intros Ha. rewrite Ha in Hmode. now apply andb_true_iff in Hmode.
  - intros Ha. rewrite Ha in Hmode. now apply andb_true_iff in Hmode.
  - intros Ha. rewrite Ha in H2D. now apply andb_true_iff in H2D.
Qed.

Lemma runs_are_configured_before_they_start_witness :
  In Demo.cell_18 (cells Demo.nb)
  /\ match Runs.cell_runs Demo.cell_18 with
     | r :: _ =>
         Runs.is_mode "2D" r = true
         /\ Runs.sets_before Runs.sets_detector_function r = true
         /\ Runs.sets_before Runs.sets_sweep_function_2D r = true
         /\ Runs.sets_before Runs.sets_sweep_points_2D r = true
     | [] => False
     end.
Proof.
  assert (Hin : In Demo.cell_18 (cells Demo.nb)).
  { simpl. do 18 right. left. reflexivity. }
  split; [exact Hin|].
  destruct (Runs.cell_runs Demo.cell_18) as [|r l] eqn:E;
    [vm_compute in E; discriminate|].
  assert (Hm : Runs.is_mode "2D" r = true)
    by (vm_compute in E; inversion E; reflexivity).
  split; [exact Hm|].
  assert (Hr : In r (Runs.cell_runs Demo.cell_18))
    by (rewrite E; left; reflexivity).
  destruct (runs_are_configured_before_they_start Demo.cell_18 r Hin Hr)
    as (Hdet & _ & _ & _ & H2D).
  split; [exact Hdet|]. exact (H2D Hm).
Defined.

(** ** Progress reporting *)

(** C2, the claim as stated fails: the run of the last code cell, started
    with [mode='adaptive'], has a captured log without any progress line; it
    ends with [Optimization completed in 1.564s]. *)
Lemma adaptive_run_log_reports_no_progress :
  (exists r,
      In (r, stdout Demo.cell_27) (Runs.captured_runs Demo.nb)
      /\ Runs.name r = "1D test"
      /\ Runs.mode r = Some "adaptive"
      /\ Runs.reports_progress (stdout Demo.cell_27) = false
      /\ last (stdout Demo.cell_27) EmptyString
         = ln "Optimization completed in 1.564s")
  /\ ~ (forall r log,
          In (r, log) (Runs.captured_runs Demo.nb) ->
          Runs.reports_progress log = true).
Proof.
  assert (E : exists r,
             In (r, stdout Demo.cell_27) (Runs.captured_runs Demo.nb)
             /\ Runs.name r = "1D test"
             /\ Runs.mode r = Some "adaptive"
             /\ Runs.reports_progress (stdout Demo.cell_27) = false
             /\ last (stdout Demo.cell_27) EmptyString
                = ln "Optimization completed in 1.564s").
  { destruct (Runs.captured Demo.cell_27) as [|[r log] l] eqn:E;
      [vm_compute in E; discriminate|].
    exists r.
    assert (Hlog : log = stdout Demo.cell_27)
      by (vm_compute in E; inversion E; reflexivity).
    split.
    - apply (in_captured_runs Demo.cell_27).
      + simpl. do 27 right. left. reflexivity.
      + rewrite E, <- Hlog. left. reflexivity.
    - vm_compute in E. inversion E. repeat split. }
  split; [exact E|].
  intros H. destruct E as (r & Hin & _ & _ & Hno & _).
  specialize (H r _ Hin). congruence.
Qed.

(** C2, amended: the log of every captured run that is not in adaptive mode
    has a progress line, of the form
    [<pct>% completed \telapsed time: <e> \ttime left: <t>] after its leading
    blanks, with <pct> a decimal number; the log of a run in adaptive mode has
    no progress line and ends with [Optimization completed in 1.564s]. *)
Theorem non_adaptive_runs_report_progress :
  (forall r log,
      In (r, log) (Runs.captured_runs Demo.nb) ->
      Runs.is_mode "adaptive" r = false ->
      exists line pct e t,
        In line log
        /\ skip_spaces line
           = pct ++ "% completed " ++ tab ++ "elapsed time: " ++ e
                 ++ " " ++ tab ++ "time left: " ++ t ++ nl
        /\ Runs.all_digits pct = true /\ pct <> EmptyString)
  /\ (forall r log,
        In (r, log) (Runs.captured_runs Demo.nb) ->
        Runs.is_mode "adaptive" r = true ->
        Runs.reports_progress log = false
        /\ last log EmptyString = ln "Optimization completed in 1.564s").
Proof.
  assert (H : forallb
                (fun rl =>
                   if Runs.is_mode "adaptive" (fst rl)
                   then negb (Runs.reports_progress (snd rl))
                        && String.eqb (last (snd rl) EmptyString)
                                      (ln "Optimization completed in 1.564s")
                   else Runs.reports_progress (snd rl))
                (Runs.captured_runs Demo.nb) = true)
    by (vm_compute; reflexivity).
  rewrite forallb_forall in H.
  split; intros r log Hin Hm; specialize (H (r, log) Hin); simpl in H;
    rewrite Hm in H.
  - unfold Runs.reports_progress in H. apply existsb_exists in H.
    destruct H as (line & Hline & Hp).
    unfold Runs.is_progress in Hp.
    destruct (Runs.progress_line line) as [[[pct e] t]|] eqn:E;
      [|discriminate].
    exists line, pct, e, t. split; [assumption|].
    now apply progress_line_sound.
  - apply andb_true_iff in H as [H1 H2].
    split; [now apply negb_true_iff | now apply String.eqb_eq].
Qed.

Lemma non_adaptive_runs_report_progress_witness :
  match Runs.captured Demo.cell_7 with
  | (r, log) :: _ =>
      In (r, log) (Runs.captured_runs Demo.nb)
      /\ Runs.is_mode "adaptive" r = false
      /\ exists line pct e t,
           In line log
           /\ skip_spaces line
              = pct ++ "% completed " ++ tab ++ "elapsed time: " ++ e
                    ++ " " ++ tab ++ "time left: " ++ t ++ nl
           /\ Runs.all_digits pct = true /\ pct <> EmptyString
  | [] => False
  end.
Proof.
  destruct (Runs.captured Demo.cell_7) as [|[r log] l] eqn:E;
    [vm_compute in E; discriminate|].
  assert (Hin : In (r, log) (Runs.captured_runs Demo.nb)).
  { apply (in_captured_runs Demo.cell_7).
    - simpl. do 7 right. left. reflexivity.
    - rewrite E. left. reflexivity. }
  assert (Hm : Runs.is_mode "adaptive" r = false)
    by (vm_compute in E; inversion E; reflexivity).
  split; [exact Hin|]. split; [exact Hm|].
  exact (proj1 non_adaptive_runs_report_progress r log Hin Hm).
Defined.

(** ** Soft averaging *)

Lemma repetitions_length (n : nat) (measure : nat -> list Q) :
  List.length (MC.repetitions n measure) = n.
Proof. unfold MC.repetitions. now rewrite length_map, length_seq. Qed.

Lemma repetitions_nth (n : nat) (measure : nat -> list Q) (k : nat) :
  k < n -> nth_error (MC.repetitions n measure) k = Some (measure k).
Proof.
  intros Hk. unfold MC.repetitions.
  rewrite nth_error_map, nth_error_seq.
  destruct (Nat.ltb_spec k n); [reflexivity | lia].
Qed.

Lemma add_points_length (a b : list Q) :
  List.length a = List.length b ->
  List.length (MC.add_points a b) = List.length a.
Proof.
  intros H. unfold MC.add_points.
  rewrite length_map, length_combine. lia.
Qed.

Lemma add_points_nth (a b : list Q) (i : nat) :
  List.length a = List.length b -> i < List.length a ->
  nth i (MC.add_points a b) 0%Q = (nth i a 0 + nth i b 0)%Q.
Proof.
  revert b i. induction a as [|x a IH]; intros [|y b] i Hlen Hi;
    simpl in *; try lia.
  destruct i as [|i]; [reflexivity|].
  apply IH; lia.
Qed.

(** Folding [add_points] over repetitions of equal length adds them up point
    by point. *)
Lemma fold_add_points (m i : nat) (rs : list (list Q)) :
  i < m -> Forall (fun r => List.length r = m) rs ->
  forall acc, List.length acc = m ->
    List.length (fold_left MC.add_points rs acc) = m
    /\ (nth i (fold_left MC.add_points rs acc) 0
        == nth i acc 0 + MC.point_sum i rs)%Q.
Proof.
  intros Hi Hrs. induction Hrs as [|r rs Hr Hrs IH]; intros acc Hacc.
  - simpl. split; [assumption|]. unfold MC.point_sum. simpl. ring.
  - simpl.
    assert (Hlen : List.length (MC.add_points acc r) = m)
      by (rewrite add_points_length; congruence).
    destruct (IH _ Hlen) as [IH1 IH2].
    split; [assumption|].
    rewrite IH2, add_points_nth by congruence.
    unfold MC.point_sum. simpl. ring.
Qed.

Lemma repetitions_forall_length (n m : nat) (measure : nat -> list Q) :
  (forall k, k < n -> List.length (measure k) = m) ->
  Forall (fun r => List.length r = m) (MC.repetitions n measure).
Proof.
  intros H. unfold MC.repetitions. apply Forall_forall. intros r Hr.
  apply in_map_iff in Hr as (k & <- & Hk).
  apply in_seq in Hk. apply H. lia.
Qed.

Lemma sum_points_spec (m i : nat) (reps : list (list Q)) :
  i < m -> reps <> [] -> Forall (fun r => List.length r = m) reps ->
  List.length (MC.sum_points reps) = m
  /\ (nth i (MC.sum_points reps) 0 == MC.point_sum i reps)%Q.
Proof.
  intros Hi Hne Hall. destruct reps as [|r rs]; [congruence|].
  inversion Hall as [|? ? Hr Hrs]; subst.
  destruct (fold_add_points (List.length r) i rs Hi Hrs r eq_refl)
    as [H1 H2].
  split; [exact H1|].
  simpl. rewrite H2. unfold MC.point_sum. simpl. reflexivity.
Qed.

(** A run with [n >= 1] soft averages over repetitions of [m] sweep points
    returns [m] values, each the mean of the [n] values measured at its
    sweep point. *)
Lemma soft_average_is_pointwise_mean (n m : nat) (measure : nat -> list Q) :
  1 <= n -> (forall k, k < n -> List.length (measure k) = m) ->
  List.length (MC.soft_average n measure) = m
  /\ forall i, i < m ->
       (nth i (MC.soft_average n measure) 0
        == MC.point_sum i (MC.repetitions n measure)
           / inject_Z (Z.of_nat n))%Q.
Proof.
  intros Hn Hlen.
  assert (Hne : MC.repetitions n measure <> []).
  { intros E. apply (f_equal (@List.length _)) in E.
    rewrite repetitions_length in E. simpl in E. lia. }
  pose proof (repetitions_forall_length n m measure Hlen) as Hall.
  unfold MC.soft_average. split.
  - rewrite length_map.
    destruct m as [|m].
    + destruct (MC.repetitions n measure) as [|r rs]; [congruence|].
      inversion Hall as [|? ? Hr Hrs]; subst.
      destruct r; [|discriminate].
      simpl. clear - Hrs. induction Hrs as [|r' rs' Hr' _ IH]; [reflexivity|].
      simpl. destruct r'; [|discriminate]. exact IH.
    + apply (sum_points_spec (S m) 0); [lia | assumption | assumption].
  - intros i Hi.
    destruct (sum_points_spec m i _ Hi Hne Hall) as [H1 H2].
    rewrite (nth_indep _ 0%Q ((fun s => s / inject_Z (Z.of_nat n)) 0)%Q)
      by (rewrite length_map; lia).
    rewrite (map_nth (fun s => (s / inject_Z (Z.of_nat n))%Q)).
    now rewrite H2.
Qed.

(** C6: the notebook's text says that the number of soft averages determines
    how many times the experiment is performed, that only the averaged data
    is kept, and that the number is a parameter of the measurement control.
    The code sets it with [MC.soft_avg(n)], always with a number, seven times
    in all; in every cell the call comes before every [MC.run] of the cell,
    and every run of the notebook starts with the parameter set (to the value
    of the latest call before it, in document order).  In the model of the
    measurement control, a run with [n >= 1] soft averages performs the
    entire measurement [n] times and returns, for each sweep point, the mean
    of the [n] values measured there. *)
Theorem soft_averages_are_set_before_runs :
  In (ln "The number of soft_averages determines how many times the experiment will be performed. ")
     (markdown_source Demo.cell_22)
  /\ In (ln "Only the averaged data is plotted and saved. ")
        (markdown_source Demo.cell_22)
  /\ In (ln "The number of soft-averages can be set as a parameter of the Measurement Control. ")
        (markdown_source Demo.cell_22)
  /\ MC.soft_avg_args (MC.notebook_stmts Demo.nb) = [15; 15; 4; 1; 4; 10; 1]
  /\ Forall (fun s => MC.unread_soft_avg s = false) (MC.notebook_stmts Demo.nb)
  /\ Forall (fun c => MC.soft_avg_leads false (Py.cell_stmts c) = true)
            (cells Demo.nb)
  /\ MC.trace None (MC.notebook_stmts Demo.nb)
     = [ ("dummy_hard", Some 15); ("dummy_hard persistent", Some 15);
         ("1D test", Some 15); ("1D test-persist", Some 15);
         ("test", Some 4); ("2D_hard", Some 1); ("dummy_hard", Some 4);
         ("dummy_hard_2D", Some 10); ("1D test", Some 1) ]
  /\ (forall n measure,
        List.length (MC.repetitions n measure) = n
        /\ forall k, k < n ->
             nth_error (MC.repetitions n measure) k = Some (measure k))
  /\ (forall n m measure,
        1 <= n -> (forall k, k < n -> List.length (measure k) = m) ->
        List.length (MC.soft_average n measure) = m
        /\ forall i, i < m ->
             (nth i (MC.soft_average n measure) 0
              == MC.point_sum i (MC.repetitions n measure)
                 / inject_Z (Z.of_nat n))%Q).
Proof.
  split; [left; reflexivity|].
  split; [right; left; reflexivity|].
  split; [right; right; left; reflexivity|].
  split; [vm_compute; reflexivity|].
  split.
  { apply (Forall_by_forallb (fun s => negb (MC.unread_soft_avg s)));
      [|vm_compute; reflexivity].
    intros s Hs. now apply negb_true_iff in Hs. }
  split.
  { apply (Forall_by_forallb
             (fun c => MC.soft_avg_leads false (Py.cell_stmts c)));
      [auto | vm_compute; reflexivity]. }
  split; [vm_compute; reflexivity|].
  split.
  - intros n measure. split;
      [apply repetitions_length | apply repetitions_nth].
  - intros n m measure. apply soft_average_is_pointwise_mean.
Qed.

Lemma soft_averages_are_set_before_runs_witness :
  1 <= 2
  /\ (forall k, k < 2 ->
        List.length ((fun k => [ inject_Z (Z.of_nat k); 1%Q ]) k) = 2)
  /\ List.length
       (MC.soft_average 2 (fun k => [ inject_Z (Z.of_nat k); 1%Q ])) = 2
  /\ (nth 0 (MC.soft_average 2 (fun k => [ inject_Z (Z.of_nat k); 1%Q ])) 0
      == MC.point_sum 0
           (MC.repetitions 2 (fun k => [ inject_Z (Z.of_nat k); 1%Q ]))
         / inject_Z (Z.of_nat 2))%Q.
Proof.
  assert (Hn : 1 <= 2) by lia.
  assert (Hlen : forall k, k < 2 ->
            List.length ((fun k => [ inject_Z (Z.of_nat k); 1%Q ]) k) = 2)
    by (intros; reflexivity).
  split; [exact Hn|]. split; [exact Hlen|].
  destruct (proj2 (proj2 (proj2 (proj2 (proj2 (proj2 (proj2 (proj2
              soft_averages_are_set_before_runs)))))))
              2 2 (fun k => [ inject_Z (Z.of_nat k); 1%Q ]) Hn Hlen)
    as [H1 H2].
  split; [exact H1|]. apply H2. lia.
Defined.

(** A run with two soft averages of a two-point sweep: the first repetition
    measures [0; 1], the second [1; 1]; the result is [1/2; 1]. *)
Example soft_average_of_two_repetitions :
  MC.soft_average 2 (fun k => [ inject_Z (Z.of_nat k); 1%Q ])
  = [ ((0 + 1) / 2)%Q; ((1 + 1) / 2)%Q ].
Proof. reflexivity. Qed.

(** * Further properties of the notebook and of the CI configuration *)

(** ** Names are bound before they are read *)

Lemma known_sound (bound : list string) (x : string) :
  Scope.known bound x = true -> In x bound.
Proof.
  unfold Scope.known. intros H. apply existsb_exists in H as (y & Hy & E).
  apply String.eqb_eq in E. now subst.
Qed.

Lemma filter_nil_all {A : Type} (p : A -> bool) (l : list A) (x : A) :
  filter p l = [] -> In x l -> p x = false.
Proof.
  intros H Hin. destruct (p x) eqn:E; [|reflexivity].
  assert (In x (filter p l)) as Hf by (apply filter_In; now split).
  rewrite H in Hf. destruct Hf.
Qed.

(** [Scope.unbound] finds every read of a name that nothing bound yet. *)
Lemma unbound_sound (before : list string) :
  forall (bound lines : list string) (l : string) (after : list string)
         (x : string),
    Scope.unbound bound lines = [] ->
    lines = (before ++ l :: after)%list ->
    In x (Scope.line_uses l) ->
    In x bound \/ exists l', In l' before /\ In x (Scope.line_binds l').
Proof.
  induction before as [|b before IH]; intros bound lines l after x H E Hx;
    subst lines; simpl in H; apply app_eq_nil in H as [H1 H2].
  - left. apply known_sound.
    apply (filter_nil_all _ _ x H1) in Hx.
    now apply negb_false_iff in Hx.
  - destruct (IH _ _ l after x H2 eq_refl Hx) as [Hb | (l' & Hl' & Hb)].
    + apply in_app_or in Hb as [Hb | Hb].
      * right. exists b. split; [now left | assumption].
      * now left.
    + right. exists l'. split; [now right | assumption].
Qed.

(** X1: read in document order, the code of the notebook never reads a name
    before an import or an assignment of an earlier line has bound it; the
    only exception is the builtin [True]. *)
Theorem names_are_bound_before_they_are_read :
  forall (before : list string) (l : string) (after : list string)
         (x : string),
    all_code_lines Demo.nb = (before ++ l :: after)%list ->
    In x (Scope.line_uses l) ->
    In x Scope.builtins
    \/ exists l', In l' before /\ In x (Scope.line_binds l').
Proof.
  intros before l after x E Hx.
  apply (unbound_sound before Scope.builtins (all_code_lines Demo.nb)
                       l after x); [vm_compute; reflexivity | exact E | exact Hx].
Qed.

Lemma names_are_bound_before_they_are_read_witness :
  all_code_lines Demo.nb
  = (firstn 9 (all_code_lines Demo.nb)
       ++ "station.add_component(MC)" :: skipn 10 (all_code_lines Demo.nb))%list
  /\ In "MC" (Scope.line_uses "station.add_component(MC)")
  /\ (In "MC" Scope.builtins
      \/ exists l', In l' (firstn 9 (all_code_lines Demo.nb))
                    /\ In "MC" (Scope.line_binds l')).
Proof.
  assert (E : all_code_lines Demo.nb
              = (firstn 9 (all_code_lines Demo.nb)
                   ++ "station.add_component(MC)"
                        :: skipn 10 (all_code_lines Demo.nb))%list)
    by (vm_compute; reflexivity).
  assert (Hx : In "MC" (Scope.line_uses "station.add_component(MC)"))
    by (vm_compute; right; left; reflexivity).
  split; [exact E|]. split; [exact Hx|].
  exact (names_are_bound_before_they_are_read _ _ _ _ E Hx).
Defined.

(** ** Captured values and instruments *)

(** X2: a code cell shows a value exactly when its last statement is
    [station.add_component(x)]: the output is then one execute_result, under
    the cell's own execution count, whose text is the [repr] of the name of
    the variable [x]; every other cell has no execute_result.  Two cells show
    a value. *)
Theorem shown_value_is_the_added_component :
  Forall (fun c => Protocol.execute_results c = Protocol.expected_results c)
         (cells Demo.nb)
  /\ flat_map Protocol.execute_results (cells Demo.nb)
     = [ (2, [ Protocol.repr "MC" ]);
         (4, [ Protocol.repr "dummy_instrument" ]) ].
Proof.
  split; [|vm_compute; reflexivity].
  unfold Demo.nb, cells, Demo.all_cells.
  repeat (apply Forall_cons; [vm_compute; reflexivity|]).
  apply Forall_nil.
Qed.

(** X3: every variable passed to [station.add_component] was created, in the
    same cell or an earlier one, by a call whose first string argument is the
    variable's own name; the components added are [MC], [IM] and
    [dummy_instrument], in this order, and the monitor that
    [MC.instrument_monitor] names is the component [IM] added just before. *)
Theorem components_carry_the_name_of_their_variable :
  Forall (fun kc => Protocol.components_named Demo.nb (fst kc) (snd kc) = true)
         (Protocol.indexed 0 (cells Demo.nb))
  /\ flat_map (fun l => match Protocol.added_component l with
                        | Some x => [x]
                        | None => []
                        end) (all_code_lines Demo.nb)
     = [ "MC"; "IM"; "dummy_instrument" ]
  /\ flat_map (fun s => match s with
                        | Py.other m a =>
                            if String.eqb m "instrument_monitor" then [a]
                            else []
                        | _ => []
                        end) (MC.notebook_stmts Demo.nb)
     = [ Protocol.repr "IM" ]
  /\ Protocol.created_name "IM" (code_source Demo.cell_3) = Some "IM".
Proof.
  split; [|repeat split; vm_compute; reflexivity].
  apply (Forall_by_forallb
           (fun kc => Protocol.components_named Demo.nb (fst kc) (snd kc)));
    [auto | vm_compute; reflexivity].
Qed.

(** X4: the execution counts of the cells are not those of one run from top
    to bottom: they repeat (three cells carry the count 10, two the count 9)
    and fall (a cell with count 9 follows one with count 10).  A cell that
    was never executed has neither source nor output, an executed cell has a
    source and at most one output. *)
Theorem execution_counts_are_not_in_document_order :
  Protocol.execution_counts Demo.nb
  = [ 1; 2; 3; 4; 6; 7; 8; 9; 10; 10; 9; 10; 11; 12 ]
  /\ ~ NoDup (Protocol.execution_counts Demo.nb)
  /\ Protocol.increasing (Protocol.execution_counts Demo.nb) = false
  /\ Forall (fun c => match c with
                      | Code None o s => o = [] /\ s = []
                      | Code (Some _) o s => s <> [] /\ List.length o <= 1
                      | Markdown s => s <> []
                      end) (cells Demo.nb).
Proof.
  split; [vm_compute; reflexivity|].
  split; [|split; [vm_compute; reflexivity|]].
  - assert (E : Protocol.execution_counts Demo.nb
                = ([ 1; 2; 3; 4; 6; 7; 8; 9 ] ++ 10 :: [ 10; 9; 10; 11; 12 ])%list)
      by (vm_compute; reflexivity).
    rewrite E. intros H. apply NoDup_remove_2 in H. apply H.
    apply in_or_app. right. left. reflexivity.
  - unfold Demo.nb, cells, Demo.all_cells.
    repeat (apply Forall_cons;
            [cbv; first [ split; [discriminate | lia]
                        | split; reflexivity
                        | discriminate ]|]).
    apply Forall_nil.
Qed.

(** ** The setup of the runs *)


Lemma cell_20_in_notebook : In Demo.cell_20 (cells Demo.nb).
Proof. simpl. do 20 right. left. reflexivity. Qed.

Lemma cell_27_in_notebook : In Demo.cell_27 (cells Demo.nb).
Proof. simpl. do 27 right. left. reflexivity. Qed.



(** X6: the detector of a run and its sweep functions go together.  Either
    the detector is a [Dummy_Detector_Hard], the first sweep function is a
    hard one and the sweep points are [np.linspace(0, 10, 30)]; or the
    detector is the parameter [dummy_instrument.parabola] and every sweep
    function is the parameter [x] or [y] of the same instrument.  Whenever
    sweep points are set for the first dimension, there are 30 of them. *)
Theorem detector_and_sweeps_go_together :
  forall c r, In c (cells Demo.nb) -> In r (Runs.cell_runs c) ->
    ((exists d,
         Protocol.run_detector r = Some d
         /\ Protocol.callee d = Some "Dummy_Detector_Hard"
         /\ option_map Protocol.control (hd_error (Runs.run_sweeps r))
            = Some (Some "hard")
         /\ option_map Protocol.linspace (Protocol.run_points c r)
            = Some (Some ("0", "10", "30")))
     \/ (Protocol.run_detector r = Some "dummy_instrument.parabola"
         /\ Forall (fun e => e = "dummy_instrument.x"
                             \/ e = "dummy_instrument.y")
                   (Runs.run_sweeps r)
         /\ (Protocol.run_points c r = None
             \/ exists a b,
                 option_map Protocol.linspace (Protocol.run_points c r)
                 = Some (Some (a, b, "30")))))
    /\ (Protocol.run_points c r = None <-> Runs.is_mode "adaptive" r = true).
Proof.
  intros c r Hc Hr.
  assert (H : forallb
                (fun c =>
                   forallb
                     (fun r =>
                        let hard :=
                          match Protocol.run_detector r,
                                hd_error (Runs.run_sweeps r),
                                Protocol.run_points c r with
                          | Some d, Some e, Some p =>
                              match Protocol.callee d, Protocol.control e,
                                    Protocol.linspace p with
                              | Some f, Some k, Some (a, b, n) =>
                                  String.eqb f "Dummy_Detector_Hard"
                                  && String.eqb k "hard" && String.eqb a "0"
                                  && String.eqb b "10" && String.eqb n "30"
                              | _, _, _ => false
                              end
                          | _, _, _ => false
                          end in
                        let soft :=
                          match Protocol.run_detector r with
                          | Some d =>
                              String.eqb d "dummy_instrument.parabola"
                              && forallb (fun e =>
                                            String.eqb e "dummy_instrument.x"
                                            || String.eqb e "dummy_instrument.y")
                                         (Runs.run_sweeps r)
                              && match Protocol.run_points c r with
                                 | None => true
                                 | Some p =>
                                     match Protocol.linspace p with
                                     | Some (_, _, n) => String.eqb n "30"
                                     | None => false
                                     end
                                 end
                          | None => false
                          end in
                        (hard || soft)
                        && Bool.eqb (match Protocol.run_points c r with
                                     | None => true
                                     | Some _ => false
                                     end)
                                    (Runs.is_mode "adaptive" r))
                     (Runs.cell_runs c))
                (cells Demo.nb) = true) by (vm_compute; reflexivity).
  rewrite forallb_forall in H. specialize (H c Hc).
  rewrite forallb_forall in H. specialize (H r Hr). cbv zeta in H.
  apply andb_true_iff in H as [H Hmode]. split.
  - apply orb_true_iff in H as [H|H].
    + left.
      destruct (Protocol.run_detector r) as [d|] eqn:Ed; [|discriminate].
      destruct (hd_error (Runs.run_sweeps r)) as [e|] eqn:Ee; [|discriminate].
      destruct (Protocol.run_points c r) as [p|] eqn:Ep; [|discriminate].
      destruct (Protocol.callee d) as [f|] eqn:Ef; [|discriminate].
      destruct (Protocol.control e) as [k|] eqn:Ek; [|discriminate].
      destruct (Protocol.linspace p) as [[[a b] n]|] eqn:El; [|discriminate].
      apply andb_true_iff in H as [H Hn].
      apply andb_true_iff in H as [H Hb].
      apply andb_true_iff in H as [H Ha].
      apply andb_true_iff in H as [Hf Hk].
      apply String.eqb_eq in Hf, Hk, Ha, Hb, Hn. subst f k a b n.
      exists d. split; [reflexivity|]. split; [exact Ef|].
      simpl. rewrite Ek, El. split; reflexivity.
    + right.
      destruct (Protocol.run_detector r) as [d|] eqn:Ed; [|discriminate].
      apply andb_true_iff in H as [H Hp].
      apply andb_true_iff in H as [Hd Hs].
      apply String.eqb_eq in Hd; subst d.
      split; [reflexivity|]. split.
      * apply (Forall_by_forallb
                 (fun e => String.eqb e "dummy_instrument.x"
                           || String.eqb e "dummy_instrument.y"));
          [|exact Hs].
        intros e He.
        apply orb_true_iff in He as [He|He]; apply String.eqb_eq in He; auto.
      * destruct (Protocol.run_points c r) as [p|] eqn:Ep; [|now left].
        right.
        destruct (Protocol.linspace p) as [[[a b] n]|] eqn:El; [|discriminate].
        apply String.eqb_eq in Hp; subst n. exists a, b.
        simpl. now rewrite El.
  - apply Bool.eqb_prop in Hmode.
    destruct (Protocol.run_points c r); rewrite <- Hmode; split;
      congruence.
Qed.

Lemma detector_and_sweeps_go_together_witness :
  In Demo.cell_20 (cells Demo.nb)
  /\ match Runs.cell_runs Demo.cell_20 with
     | r :: _ =>
         Protocol.run_points Demo.cell_20 r = None
         <-> Runs.is_mode "adaptive" r = true
     | [] => False
     end.
Proof.
  split; [exact cell_20_in_notebook|].
  destruct (Runs.cell_runs Demo.cell_20) as [|r l] eqn:E;
    [vm_compute in E; discriminate|].
  assert (Hr : In r (Runs.cell_runs Demo.cell_20))
    by (rewrite E; left; reflexivity).
  exact (proj2 (detector_and_sweeps_go_together Demo.cell_20 r
                  cell_20_in_notebook Hr)).
Defined.

(** ** What the logs name *)

Lemma indexed_nth {A : Type} (l : list A) :
  forall k i x, nth_error l i = Some x -> In (k + i, x) (Protocol.indexed k l).
Proof.
  induction l as [|y l IH]; intros k i x H.
  - destruct i; discriminate.
  - destruct i as [|i]; simpl in *.
    + inversion H; subst. left. f_equal. lia.
    + right. replace (k + S i) with (S k + i) by lia. now apply IH.
Qed.

(** X7: the log of a run names the detector after the code: a parameter
    [obj.p] is logged as [p], a [Dummy_Detector_Hard] as [Dummy_Detector].
    It has one sweep line per sweep function of the run; a constructed sweep
    function is logged by the name of its class, and the first sweep function
    of a run that is not adaptive, when it is a parameter [obj.p], by [p].
    The rule stops there: the second parameter of the 2D run is logged as
    [Sweep_function], and both parameters of the adaptive run as [module]. *)
Theorem logs_name_detector_and_sweeps :
  (forall c r log, In c (cells Demo.nb) -> In (r, log) (Runs.captured c) ->
     (exists d,
         Protocol.run_detector r = Some d
         /\ ((exists p, Protocol.attribute d = Some p
                        /\ Protocol.logged_detector log = [ p ])
             \/ (Protocol.callee d = Some "Dummy_Detector_Hard"
                 /\ Protocol.logged_detector log = [ "Dummy_Detector" ])))
     /\ List.length (Protocol.logged_sweeps log)
        = List.length (Runs.run_sweeps r)
     /\ forall i e n,
          nth_error (combine (Runs.run_sweeps r) (Protocol.logged_sweeps log)) i
          = Some (e, n) ->
          forall n',
            Protocol.expected_sweep_name (Runs.is_mode "adaptive" r) i e
            = Some n' ->
            n = n')
  /\ Protocol.logged_sweeps (stdout Demo.cell_18) = [ "x"; "Sweep_function" ]
  /\ Protocol.logged_sweeps (stdout Demo.cell_27) = [ "module"; "module" ].
Proof.
  split; [|split; vm_compute; reflexivity].
  intros c r log Hc Hin.
  assert (H : forallb
                (fun c =>
                   forallb
                     (fun rl =>
                        let r := fst rl in
                        let log := snd rl in
                        match Protocol.run_detector r with
                        | Some d =>
                            match Protocol.attribute d,
                                  Protocol.logged_detector log with
                            | Some p, [ q ] => String.eqb p q
                            | None, [ q ] =>
                                match Protocol.callee d with
                                | Some f =>
                                    String.eqb f "Dummy_Detector_Hard"
                                    && String.eqb q "Dummy_Detector"
                                | None => false
                                end
                            | _, _ => false
                            end
                        | None => false
                        end
                        && (List.length (Protocol.logged_sweeps log)
                            =? List.length (Runs.run_sweeps r))
                        && forallb
                             (fun ien =>
                                match Protocol.expected_sweep_name
                                        (Runs.is_mode "adaptive" r)
                                        (fst ien) (fst (snd ien)) with
                                | Some n' => String.eqb (snd (snd ien)) n'
                                | None => true
                                end)
                             (Protocol.indexed 0
                                (combine (Runs.run_sweeps r)
                                         (Protocol.logged_sweeps log))))
                     (Runs.captured c))
                (cells Demo.nb) = true) by (vm_compute; reflexivity).
  rewrite forallb_forall in H. specialize (H c Hc).
  rewrite forallb_forall in H. specialize (H (r, log) Hin).
  cbv zeta in H. simpl fst in H. simpl snd in H.
  apply andb_true_iff in H as [H Hsw].
  apply andb_true_iff in H as [Hdet Hlen].
  split; [|split].
  - destruct (Protocol.run_detector r) as [d|] eqn:Ed; [|discriminate].
    exists d. split; [reflexivity|].
    destruct (Protocol.attribute d) as [p|] eqn:Ea.
    + destruct (Protocol.logged_detector log) as [|q [|? ?]]; try discriminate.
      apply String.eqb_eq in Hdet; subst q. left. now exists p.
    + destruct (Protocol.logged_detector log) as [|q [|? ?]]; try discriminate.
      destruct (Protocol.callee d) as [f|] eqn:Ef; [|discriminate].
      apply andb_true_iff in Hdet as [Hf Hq].
      apply String.eqb_eq in Hf, Hq. subst f q. right. now split.
  - now apply Nat.eqb_eq.
  - intros i e n Hnth n' He.
    rewrite forallb_forall in Hsw.
    specialize (Hsw (0 + i, (e, n)) (indexed_nth _ 0 i (e, n) Hnth)).
    simpl in Hsw. rewrite He in Hsw. now apply String.eqb_eq.
Qed.

Lemma logs_name_detector_and_sweeps_witness :
  In Demo.cell_20 (cells Demo.nb)
  /\ match Runs.captured Demo.cell_20 with
     | (r, log) :: _ =>
         List.length (Protocol.logged_sweeps log)
         = List.length (Runs.run_sweeps r)
     | [] => False
     end.
Proof.
  split; [exact cell_20_in_notebook|].
  destruct (Runs.captured Demo.cell_20) as [|[r log] l] eqn:E;
    [vm_compute in E; discriminate|].
  assert (Hr : In (r, log) (Runs.captured Demo.cell_20))
    by (rewrite E; left; reflexivity).
  exact (proj1 (proj2 (proj1 logs_name_detector_and_sweeps Demo.cell_20 r log
                         cell_20_in_notebook Hr))).
Defined.



(** X9: a run whose name says it persists repeats the run just before it:
    its name extends that run's name, and its sweep functions, sweep points
    and detector are the same expressions.  There are two such runs, and
    [MC.persist_mode(True)] is called before the first run of the notebook. *)
Theorem persistent_runs_repeat_the_run_before :
  (forall r1 r2,
      In (r1, r2) (Protocol.pairs (Protocol.all_runs Demo.nb)) ->
      contains "persist" (Runs.name r2) = true ->
      starts_with (Runs.name r1) (Runs.name r2) = true
      /\ Protocol.setup r2 = Protocol.setup r1)
  /\ filter (contains "persist")
            (map Runs.name (Protocol.all_runs Demo.nb))
     = [ "dummy_hard persistent"; "1D test-persist" ]
  /\ option_map (fun r => Protocol.last_arg Protocol.persist_arg (Runs.before r))
                (hd_error (Protocol.all_runs Demo.nb))
     = Some (Some "True").
Proof.
  split; [|split; vm_compute; reflexivity].
  intros r1 r2 Hin Hp. vm_compute in Hin.
  repeat (destruct Hin as [Hin|Hin];
          [inversion Hin; subst r1 r2; clear Hin;
           vm_compute in Hp; try discriminate Hp;
           split; vm_compute; reflexivity|]).
  destruct Hin.
Qed.

Lemma persistent_runs_repeat_the_run_before_witness :
  match Protocol.pairs (Protocol.all_runs Demo.nb) with
  | (r1, r2) :: _ =>
      In (r1, r2) (Protocol.pairs (Protocol.all_runs Demo.nb))
      /\ contains "persist" (Runs.name r2) = true
      /\ Protocol.setup r2 = Protocol.setup r1
  | [] => False
  end.
Proof.
  destruct (Protocol.pairs (Protocol.all_runs Demo.nb)) as [|[r1 r2] l] eqn:E;
    [vm_compute in E; discriminate|].
  assert (Hin : In (r1, r2) ((r1, r2) :: l)) by (left; reflexivity).
  assert (Hp : contains "persist" (Runs.name r2) = true)
    by (vm_compute in E; inversion E; reflexivity).
  split; [exact Hin|]. split; [exact Hp|].
  rewrite <- E in Hin.
  exact (proj2 (proj1 persistent_runs_repeat_the_run_before r1 r2 Hin Hp)).
Defined.

(** X10: a run in adaptive mode is set up by one call of
    [MC.set_adaptive_function_parameters], written over two lines, whose
    dict names the imported [nelder_mead] as adaptive function and gives a
    start point [x0] and an [initial_step] with one component per sweep
    function of the run. *)
Theorem adaptive_parameters_match_the_sweep_functions :
  forall c r, In c (cells Demo.nb) -> In r (Runs.cell_runs c) ->
    Runs.is_mode "adaptive" r = true ->
    exists args x0 step,
      Protocol.adaptive_parameters c = [ args ]
      /\ Protocol.dict_name "adaptive_function" args = Some "nelder_mead"
      /\ Repo.resolve "nelder_mead" (code_source c)
         = Some "pycqed.measurement.optimization.nelder_mead"
      /\ Protocol.dict_list "x0" args = Some x0
      /\ Protocol.dict_list "initial_step" args = Some step
      /\ List.length x0 = Runs.sweep_dims r
      /\ List.length step = Runs.sweep_dims r.
Proof.
  intros c r Hc Hr Hm.
  assert (H : forallb
                (fun c =>
                   forallb
                     (fun r =>
                        negb (Runs.is_mode "adaptive" r)
                        || match Protocol.adaptive_parameters c with
                           | [ args ] =>
                               match Protocol.dict_name "adaptive_function" args,
                                     Repo.resolve "nelder_mead" (code_source c),
                                     Protocol.dict_list "x0" args,
                                     Protocol.dict_list "initial_step" args with
                               | Some f, Some p, Some x0, Some step =>
                                   String.eqb f "nelder_mead"
                                   && String.eqb p
                                        "pycqed.measurement.optimization.nelder_mead"
                                   && (List.length x0 =? Runs.sweep_dims r)
                                   && (List.length step =? Runs.sweep_dims r)
                               | _, _, _, _ => false
                               end
                           | _ => false
                           end)
                     (Runs.cell_runs c))
                (cells Demo.nb) = true) by (vm_compute; reflexivity).
  rewrite forallb_forall in H. specialize (H c Hc).
  rewrite forallb_forall in H. specialize (H r Hr).
  rewrite Hm in H. simpl in H.
  destruct (Protocol.adaptive_parameters c) as [|args [|? ?]] eqn:Ea;
    try discriminate.
  destruct (Protocol.dict_name "adaptive_function" args) as [f|] eqn:Ef;
    [|discriminate].
  destruct (Repo.resolve "nelder_mead" (code_source c)) as [p|] eqn:Er;
    [|discriminate].
  destruct (Protocol.dict_list "x0" args) as [x0|] eqn:Ex; [|discriminate].
  destruct (Protocol.dict_list "initial_step" args) as [step|] eqn:Es;
    [|discriminate].
  apply andb_true_iff in H as [H Hs].
  apply andb_true_iff in H as [H Hx].
  apply andb_true_iff in H as [Hf Hp].
  apply String.eqb_eq in Hf, Hp. apply Nat.eqb_eq in Hx, Hs. subst f p.
  exists args, x0, step. repeat split; assumption.
Qed.

Lemma adaptive_parameters_match_the_sweep_functions_witness :
  In Demo.cell_27 (cells Demo.nb)
  /\ match Runs.cell_runs Demo.cell_27 with
     | r :: _ =>
         Runs.is_mode "adaptive" r = true
         /\ exists args x0 step,
             Protocol.adaptive_parameters Demo.cell_27 = [ args ]
             /\ Protocol.dict_name "adaptive_function" args
                = Some "nelder_mead"
             /\ Repo.resolve "nelder_mead" (code_source Demo.cell_27)
                = Some "pycqed.measurement.optimization.nelder_mead"
             /\ Protocol.dict_list "x0" args = Some x0
             /\ Protocol.dict_list "initial_step" args = Some step
             /\ List.length x0 = Runs.sweep_dims r
             /\ List.length step = Runs.sweep_dims r
     | [] => False
     end.
Proof.
  split; [exact cell_27_in_notebook|].
  destruct (Runs.cell_runs Demo.cell_27) as [|r l] eqn:E;
    [vm_compute in E; discriminate|].
  assert (Hr : In r (Runs.cell_runs Demo.cell_27))
    by (rewrite E; left; reflexivity).
  assert (Hm : Runs.is_mode "adaptive" r = true)
    by (vm_compute in E; inversion E; reflexivity).
  split; [exact Hm|].
  exact (adaptive_parameters_match_the_sweep_functions Demo.cell_27 r
           cell_27_in_notebook Hr Hm).
Defined.

(** ** More on the CI configuration *)

(** X11: the file has eight top-level keys, each once, and lists its phases
    in the order Travis runs them: the steps read in file order are the steps
    in run order.  The branch whitelist is only a comment: no [branches] key
    is in force. *)
Theorem ci_phases_are_listed_in_run_order :
  map Travis.key Travis.config
  = [ "language"; "notifications"; "os"; "python"; "install";
      "before_script"; "script"; "after_success" ]
  /\ NoDup (map Travis.key Travis.config)
  /\ Travis.file_order Travis.config = Travis.run_order Travis.config
  /\ List.length (Travis.run_order Travis.config) = 13
  /\ In "# branches:" Travis.travis_yml
  /\ ~ In "branches" (map Travis.key Travis.config).
Proof.
  assert (E : map Travis.key Travis.config
              = [ "language"; "notifications"; "os"; "python"; "install";
                  "before_script"; "script"; "after_success" ])
    by (vm_compute; reflexivity).
  split; [exact E|]. rewrite E.
  split; [|split; [vm_compute; reflexivity|split; [vm_compute; reflexivity|]]].
  - repeat (apply NoDup_cons; [simpl; intuition discriminate|]).
    apply NoDup_nil.
  - split; [simpl; do 10 right; left; reflexivity|].
    simpl. intuition discriminate.
Qed.

(** X12: the CI configuration and the notebook agree on the interpreter: the
    configured language is the language of the notebook's kernel, and the one
    Python version CI tests, 3.6, is the minor version of the Python that
    executed the notebook. *)
Theorem ci_python_is_the_notebook_python :
  Ci.scalar_of Travis.config "language"
  = Some (li_name (metadata_language_info Demo.nb))
  /\ language (metadata_kernelspec Demo.nb)
     = li_name (metadata_language_info Demo.nb)
  /\ Travis.commands Travis.config "python" = [ "3.6" ]
  /\ Forall (fun v => starts_with (v ++ ".")
                        (version (metadata_language_info Demo.nb)) = true)
            (Travis.commands Travis.config "python").
Proof.
  split; [vm_compute; reflexivity|].
  split; [reflexivity|].
  split; [vm_compute; reflexivity|].
  apply (Forall_by_forallb
           (fun v => starts_with (v ++ ".")
                       (version (metadata_language_info Demo.nb))));
    [auto | vm_compute; reflexivity].
Qed.

(** X13: the [after_success] steps run after the [script] step and after
    every [install] step.  Its one [pip install] step repeats a step of the
    [install] phase word for word, and the upload of the coverage report is
    the last step of the job. *)
Theorem coverage_upload_is_last_and_reinstalls :
  (forall i j c c',
      nth_error (Travis.run_order Travis.config) i = Some ("script", c) ->
      nth_error (Travis.run_order Travis.config) j
      = Some ("after_success", c') ->
      i < j)
  /\ (forall i j c c',
        nth_error (Travis.run_order Travis.config) i = Some ("install", c) ->
        nth_error (Travis.run_order Travis.config) j
        = Some ("after_success", c') ->
        i < j)
  /\ filter Travis.installs_packages
            (Travis.commands Travis.config "after_success")
     = [ "pip install codacy-coverage" ]
  /\ In "pip install codacy-coverage" (Travis.commands Travis.config "install")
  /\ last (Travis.run_order Travis.config) (EmptyString, EmptyString)
     = ("after_success", "python-codacy-coverage -r coverage.xml").
Proof.
  split; [apply precedes_positions;
          [discriminate | vm_compute; reflexivity]|].
  split; [apply precedes_positions;
          [discriminate | vm_compute; reflexivity]|].
  split; [vm_compute; reflexivity|].
  split; [|vm_compute; reflexivity].
  vm_compute. do 5 right. left. reflexivity.
Qed.

Lemma coverage_upload_is_last_and_reinstalls_witness :
  nth_error (Travis.run_order Travis.config) 10
  = Some ("script",
          "py.test pycqed/tests --cov=pycqed --cov-report xml --cov-config=.coveragerc")
  /\ nth_error (Travis.run_order Travis.config) 12
     = Some ("after_success", "python-codacy-coverage -r coverage.xml")
  /\ 10 < 12.
Proof.
  split; [vm_compute; reflexivity|].
  split; [vm_compute; reflexivity|].
  apply (proj1 coverage_upload_is_last_and_reinstalls 10 12
           "py.test pycqed/tests --cov=pycqed --cov-report xml --cov-config=.coveragerc"
           "python-codacy-coverage -r coverage.xml");
    vm_compute; reflexivity.
Defined.
